(** * next-tool: the action dispatcher of [src/index.ts]

    A shallow embedding of the class [NextTool] (constructor, [init],
    [rawHandler], [pagesApiHandler]) and the properties of its dispatch
    contract.

    Modelling conventions.
    - Every variable ranges over the inhabitants of its TypeScript type.  A
      position typed [any] (the request input, what a handler resolves to,
      what a [catch] clause binds, the generic [Store]) holds a [value]: the
      JavaScript values with their truthiness and their property reads.
    - A [Record<string, T>] is an object literal: its own keys are a finite
      map [gmap string T], and indexing it with a key it does not own finds
      what [Object.prototype] defines under that key.  [Object.prototype] is
      the one of the language, as it is before any program adds to it.
    - [send] is the respond capability the caller hands in.  It is taken as a
      function that returns: the response of a dispatch is what [send] makes
      of the envelope and the init object it is given.  A [send] that throws,
      or hands back a promise that rejects, is outside this embedding.
    - An optional field [f?: T] is an [option T]; [None] is [undefined].
    - An [async] function is a state transformer that either resolves
      ([Normal]) or rejects ([Throw]); [await] on a rejected promise rethrows.
      User code (handlers, hooks, the store factory) acts on a world [W] the
      dispatcher does not look into.
    - The dispatcher keeps a [trace] of the functions it invokes and of what it
      writes to the console, so that "is invoked", "exactly once" and "in this
      order" are statements about that trace. *)

From Stdlib Require Import String Ascii ZArith List Bool Lia.
From stdpp Require Import base option list gmap strings.
Import ListNotations.

Local Open Scope string_scope.
Local Open Scope list_scope.
Local Open Scope Z_scope.

#[local] Set Warnings "-register-all".

(** ** JavaScript values *)

Inductive value : Type :=
| VUndefined
| VNull
| VBool (b : bool)
| VNum (n : Z)
| VStr (s : string)
| VObj (fields : list (string * value))
| VWrapper (prim : value).   (* the Boolean, Number or String object around prim *)

(** [ToBoolean]: what [if (x)], [!x], [x ? a : b] and [x || y] test.  Numbers
    are the integers; [NaN], falsy like [0], is not represented. *)
Definition truthy (v : value) : bool :=
  match v with
  | VUndefined | VNull => false
  | VBool b => b
  | VNum n => negb (n =? 0)
  | VStr s => negb (String.eqb s "")
  | VObj _ | VWrapper _ => true
  end.

(** Own-key lookup in an object literal, first match. *)
Fixpoint assoc (k : string) (fields : list (string * value)) : option value :=
  match fields with
  | [] => None
  | (k', v) :: rest => if String.eqb k k' then Some v else assoc k rest
  end.

Definition has_field (k : string) (v : value) : bool :=
  match v with
  | VObj fields => match assoc k fields with Some _ => true | None => false end
  | _ => false
  end.

Definition field (k : string) (v : value) : value :=
  match v with
  | VObj fields => match assoc k fields with Some x => x | None => VUndefined end
  | _ => VUndefined
  end.

(** The outcome of evaluating an expression or awaiting a promise. *)
Inductive completion (A : Type) : Type :=
| Normal (a : A)
| Throw (e : value).
Arguments Normal {A} a.
Arguments Throw {A} e.

(** The [TypeError] a property read on [undefined] or [null] raises.  Its
    message text is chosen by the engine and is left out. *)
Definition TypeError : value := VObj [("name", VStr "TypeError")].

(** [(error as any).message]: a property read on an arbitrary value.  It throws
    on [undefined] and [null]; a boolean, number or string has no such
    property; an object yields the field or [undefined]. *)
Definition get_message (error : value) : completion value :=
  match error with
  | VUndefined | VNull => Throw TypeError
  | VBool _ | VNum _ | VStr _ | VWrapper _ => Normal VUndefined
  | VObj _ => Normal (field "message" error)
  end.

(** [new Error(msg)] as far as this program looks at it. *)
Definition Error (msg : string) : value := VObj [("message", VStr msg)].

(** The double-quote character of the template literals. *)
Definition dquote : string := String "034"%char EmptyString.

(** ** The request and configuration types *)

Record Body : Type := {
  action : option string;
  input : value
}.

Record NextToolRequest : Type := {
  body : option Body;
  headers : option (list (string * string))
}.

Record ResponseInit : Type := { status : option Z }.

(** The object literals [{ error: msg }], [{ data }] and [{ status: n }], for
    the statements. *)
Definition error_envelope (msg : value) : value := VObj [("error", msg)].
Definition data_envelope (data : value) : value := VObj [("data", data)].
Definition with_status (n : Z) : option ResponseInit := Some {| status := Some n |}.

(** ** Records and [Object.prototype] *)

(** The keys [Object.prototype] defines. *)
Definition object_prototype_keys : list string :=
  [ "constructor"; "hasOwnProperty"; "isPrototypeOf"; "propertyIsEnumerable";
    "toLocaleString"; "toString"; "valueOf"; "__proto__";
    "__defineGetter__"; "__defineSetter__"; "__lookupGetter__"; "__lookupSetter__" ].

Definition inherited (key : string) : bool :=
  existsb (String.eqb key) object_prototype_keys.

(** What [record[key]] evaluates to: the value the record owns under the key,
    else the member of [Object.prototype] of that name, else [undefined].  An
    own value (a handler, a configuration entry) and an inherited member (a
    function, or the prototype itself for [__proto__]) are truthy. *)
Inductive member (T : Type) : Type :=
| Own (x : T)
| Inherited (key : string)
| Absent.
Arguments Own {T} x.
Arguments Inherited {T} key.
Arguments Absent {T}.

Definition get {T : Type} (record : gmap string T) (key : string) : member T :=
  match record !! key with
  | Some x => Own x
  | None => if inherited key then Inherited key else Absent
  end.

(** The text of the message of a [TypeError] the engine raises when the
    member [callee] of [Object.prototype] is applied to [arg]; each engine has
    its own wording. *)
Class Engine : Type := { type_error_message : string -> value -> string }.

Definition EngineTypeError `{Engine} (callee : string) (arg : value) : value :=
  VObj [("name", VStr "TypeError"); ("message", VStr (type_error_message callee arg))].

Definition is_object (v : value) : bool :=
  match v with
  | VObj _ | VWrapper _ => true
  | _ => false
  end.

(** [Object(arg)]. *)
Definition to_object (arg : value) : value :=
  match arg with
  | VUndefined | VNull => VObj []
  | VObj _ | VWrapper _ => arg
  | VBool _ | VNum _ | VStr _ => VWrapper arg
  end.

(** The member [key] of [Object.prototype] applied as a plain function, its
    [this] being [undefined], to [arg] (and to a second argument none of them
    looks at before it returns or throws).  [toString] answers for
    [undefined]; [constructor] is [Object]; [isPrototypeOf] answers [false]
    for what is not an object; every other one needs [this] as an object and
    throws. *)
Definition apply_inherited `{Engine} (key : string) (arg : value) : completion value :=
  if String.eqb key "toString" then Normal (VStr "[object Undefined]")
  else if String.eqb key "constructor" then Normal (to_object arg)
  else if String.eqb key "isPrototypeOf" then
    if is_object arg then Throw (EngineTypeError key arg) else Normal (VBool false)
  else Throw (EngineTypeError key arg).

Section Dispatcher.

(** The world user code acts on. *)
Variable W : Type.

(** The engine the program runs on. *)
Context `{engine : Engine}.

(** [NextToolActionFn], and the type of the [before] and [after] hooks. *)
Definition NextToolActionFn : Type :=
  value -> NextToolRequest -> W -> completion value * W.

(** [NextToolStorePromise<Store>]. *)
Definition NextToolStorePromise : Type := W -> completion value * W.

Record NextToolActionConfig : Type := {
  after : option NextToolActionFn;
  before : option NextToolActionFn;
  disabled : option bool
}.

Record NextToolConfig : Type := {
  actions : option (gmap string NextToolActionConfig)
}.

(** The fields of a [NextTool] instance. *)
Record NextTool : Type := {
  store : value;
  getStoreFn : option NextToolStorePromise;
  config : NextToolConfig;
  actionMap : gmap string NextToolActionFn
}.

(** The second constructor argument: a factory or a precomputed store. *)
Inductive StoreArg : Type :=
| StoreFn (f : NextToolStorePromise)
| StoreValue (v : value).

(** [constructor(config, store?, actionMap?)].  [store !== undefined]
    fails for an omitted argument and for the value [undefined]. *)
Definition constructor (cfg : NextToolConfig) (st : option StoreArg)
    (am : option (gmap string NextToolActionFn)) : NextTool :=
  {| store := VUndefined;
     getStoreFn :=
       match st with
       | None | Some (StoreValue VUndefined) => None
       | Some (StoreFn f) => Some f
       | Some (StoreValue v) => Some (fun w => (Normal v, w))
       end;
     config := cfg;
     actionMap := match am with Some m => m | None => ∅ end |}.

(** ** Execution state and trace *)

Inductive event : Type :=
| EvGetStoreFn (r : completion value)       (* this.getStoreFn() was called and settled with r *)
| EvBefore (name : string) (arg : value)    (* actionConfig.before(arg, request) *)
| EvAction (name : string) (arg : value)    (* actionFn(arg, request) *)
| EvAfter (name : string) (arg : value)     (* actionConfig.after(arg, request) *)
| EvConsoleError (e : value).               (* console.error(e) *)

Record state : Type := {
  this : NextTool;
  world : W;
  trace : list event
}.

Definition getStore (st : state) : value := store (this st).
Definition getConfig (st : state) : NextToolConfig := config (this st).

(** A fresh instance in a world, nothing invoked yet. *)
Definition fresh (t : NextTool) (w : W) : state :=
  {| this := t; world := w; trace := [] |}.

(** ** The monad of [async] methods *)

Definition M (A : Type) : Type := state -> completion A * state.

Definition ret {A} (a : A) : M A := fun st => (Normal a, st).

Definition throw {A} (e : value) : M A := fun st => (Throw e, st).

Definition bind {A B} (c : M A) (k : A -> M B) : M B :=
  fun st =>
    match c st with
    | (Normal a, st') => k a st'
    | (Throw e, st') => (Throw e, st')
    end.

(** [try { c } catch (error) { h error }]. *)
Definition try_catch {A} (c : M A) (h : value -> M A) : M A :=
  fun st =>
    match c st with
    | (Normal a, st') => (Normal a, st')
    | (Throw e, st') => h e st'
    end.

Definition lift {A} (r : completion A) : M A := fun st => (r, st).

Definition log (ev : event) : M unit :=
  fun st =>
    (Normal tt, {| this := this st; world := world st; trace := trace st ++ [ev] |}).

(** [await f(arg, request)] for a handler or hook [f]. *)
Definition call (ev : value -> event) (f : NextToolActionFn) (arg : value)
    (request : NextToolRequest) : M value :=
  fun st =>
    let '(r, w') := f arg request (world st) in
    (r, {| this := this st; world := w'; trace := trace st ++ [ev arg] |}).

Definition console_error (e : value) : M unit := log (EvConsoleError e).

Definition set_store (v : value) : M unit :=
  fun st =>
    (Normal tt,
     {| this := {| store := v;
                   getStoreFn := getStoreFn (this st);
                   config := config (this st);
                   actionMap := actionMap (this st) |};
        world := world st;
        trace := trace st |}).

Notation "'let*' x ':=' c 'in' k" := (bind c (fun x => k))
  (at level 10, x name, c at level 100, k at level 200).

(** ** [init]

    [if (!this.store && this.getStoreFn) { this.store = await
    this.getStoreFn?.(); }].  The [await] cuts the method in two: the guard
    and the call of the factory run when [init()] is called; the assignment
    runs when the promise the factory returned has settled. *)

(** Up to the [await]: [None] when the guard fails, otherwise how the
    promise returned by the factory settles. *)
Definition init_call (st : state) : option (completion value) * state :=
  if negb (truthy (store (this st))) then
    match getStoreFn (this st) with
    | Some f =>
        let '(r, w') := f (world st) in
        (Some r,
         {| this := this st; world := w'; trace := trace st ++ [EvGetStoreFn r] |})
    | None => (None, st)
    end
  else (None, st).

(** After the [await]: assign what the promise resolved to, or rethrow. *)
Definition init_resume (p : option (completion value)) : M unit :=
  match p with
  | None => ret tt
  | Some (Normal v) => set_store v
  | Some (Throw e) => throw e
  end.

(** [await this.init()] with nothing scheduled in between. *)
Definition init : M unit :=
  fun st => let '(p, st') := init_call st in init_resume p st'.

(** ** [rawHandler] *)

Section RawHandler.

(** What [send] returns. *)
Variable R : Type.

Record NextToolHandlerArgs : Type := {
  request : NextToolRequest;
  send : value -> option ResponseInit -> R
}.

(** [actionConfig.disabled] as a condition. *)
Definition is_disabled (c : NextToolActionConfig) : bool :=
  match disabled c with Some b => b | None => false end.

(** What the reads [actionConfig.after], [actionConfig.before] and
    [actionConfig.disabled] find: the fields of an own entry; on a member of
    [Object.prototype], which has none of the three, [undefined]. *)
Definition entry (actionConfig : member NextToolActionConfig) : NextToolActionConfig :=
  match actionConfig with
  | Own c => c
  | Inherited _ | Absent => {| after := None; before := None; disabled := None |}
  end.

(** [actionFn] as something to call: an own handler; a function of
    [Object.prototype]; nothing for [__proto__], which is an object. *)
Definition callable (actionFn : member NextToolActionFn) : option NextToolActionFn :=
  match actionFn with
  | Own f => Some f
  | Inherited key =>
      if String.eqb key "__proto__" then None
      else Some (fun arg _ w => (apply_inherited key arg, w))
  | Absent => None
  end.

Definition rawHandler (args : NextToolHandlerArgs) : M R :=
  let send := send args in
  let request := request args in
  match body request with
  | None =>
      ret (send (VObj [("error", VStr "No body")]) (Some {| status := Some 400 |}))
  | Some b =>
    let input := input b in
    match action b with
    | None =>
        ret (send (VObj [("error", VStr "No action")]) (Some {| status := Some 400 |}))
    | Some action =>
      if String.eqb action "" then
        ret (send (VObj [("error", VStr "No action")]) (Some {| status := Some 400 |}))
      else fun st =>
        match get (actionMap (this st)) action with
        | Absent =>
            ret (send (VObj [("error",
                              VStr ("Unknown action " +:+ dquote +:+ action +:+ dquote))])
                      (Some {| status := Some 400 |})) st
        | actionFn =>
          match actions (config (this st)) with
          | None =>
              ret (send (VObj [("error",
                                VStr ("Action " +:+ dquote +:+ action +:+ dquote
                                      +:+ " not enabled"))])
                        (Some {| status := Some 400 |})) st
          | Some enabledActions =>
            match get enabledActions action with
            | Absent =>
                ret (send (VObj [("error",
                                  VStr ("Action " +:+ dquote +:+ action +:+ dquote
                                        +:+ " not enabled"))])
                          (Some {| status := Some 400 |})) st
            | actionConfig =>
              if is_disabled (entry actionConfig) then
                ret (send (VObj [("error",
                                  VStr ("Action " +:+ dquote +:+ action +:+ dquote
                                        +:+ " not enabled"))])
                          (Some {| status := Some 400 |})) st
              else
                (let* _ := init in
                 try_catch
                   (let* before :=
                      match before (entry actionConfig) with
                      | Some f => call (EvBefore action) f input request
                      | None => ret input
                      end in
                    let* res :=
                      match callable actionFn with
                      | Some f => call (EvAction action) f before request
                      | None => throw (EngineTypeError action before)
                      end in
                    let* data :=
                      match after (entry actionConfig) with
                      | Some f => call (EvAfter action) f res request
                      | None => ret res
                      end in
                    ret (send (VObj [("data", data)]) None))
                   (fun error =>
                      let* _ := console_error error in
                      let* message := lift (get_message error) in
                      ret (send (VObj [("error", message)])
                             (Some {| status := Some 500 |})))) st
            end
          end
        end
    end
  end.

(** A sequence of dispatches on one instance, one after the other; each
    starts where the previous one ended, however it ended. *)
Fixpoint dispatch_all (reqs : list NextToolHandlerArgs) (st : state) : state :=
  match reqs with
  | [] => st
  | args :: rest => dispatch_all rest (snd (rawHandler args st))
  end.

End RawHandler.

(** ** [pagesApiHandler]

    Its [send] is [json]: [response.status(options?.status || 200).json(data)],
    here the status set and the body written. *)
Definition json (data : value) (options : option ResponseInit) : Z * value :=
  (match options with
   | Some {| status := Some n |} => if n =? 0 then 200 else n
   | _ => 200
   end, data).

Definition pagesApiHandler (req : NextToolRequest) : M (Z * value) :=
  rawHandler (Z * value) {| request := {| body := body req; headers := headers req |};
                            send := json |}.

(** ** Dispatches that overlap

    A dispatch gives control away only at an [await].  When [n] dispatches
    are started together, each runs [rawHandler] up to the [await] inside
    [init] before any of the factory promises is settled; the assignments to
    [this.store] follow, one per dispatch. *)

Fixpoint init_calls (n : nat) (st : state) : list (option (completion value)) * state :=
  match n with
  | O => ([], st)
  | S n' =>
      let '(p, st1) := init_call st in
      let '(ps, st2) := init_calls n' st1 in
      (p :: ps, st2)
  end.

(** The stores the dispatches find when their [init] resumes, in order, and
    the state after the last one. *)
Fixpoint init_resumes (ps : list (option (completion value))) (st : state)
    : list value * state :=
  match ps with
  | [] => ([], st)
  | p :: rest =>
      let st1 := snd (init_resume p st) in
      let '(seen, st2) := init_resumes rest st1 in
      (store (this st1) :: seen, st2)
  end.

(** How often the factory was called, and how often it resolved to a value
    that passes [!this.store]. *)
Definition is_factory_call (ev : event) : bool :=
  match ev with EvGetStoreFn _ => true | _ => false end.

Definition is_factory_hit (ev : event) : bool :=
  match ev with EvGetStoreFn (Normal v) => truthy v | _ => false end.

Definition factory_calls (tr : list event) : nat :=
  length (filter (fun ev => is_factory_call ev = true) tr).

Definition factory_hits (tr : list event) : nat :=
  length (filter (fun ev => is_factory_hit ev = true) tr).

End Dispatcher.

Arguments after {W} _.
Arguments before {W} _.
Arguments disabled {W} _.
Arguments actions {W} _.
Arguments store {W} _.
Arguments getStoreFn {W} _.
Arguments config {W} _.
Arguments actionMap {W} _.
Arguments StoreFn {W} f.
Arguments StoreValue {W} v.
Arguments constructor {W} cfg st am.
Arguments this {W} _.
Arguments world {W} _.
Arguments trace {W} _.
Arguments getStore {W} st.
Arguments getConfig {W} st.
Arguments fresh {W} t w.
Arguments ret {W A} a _.
Arguments throw {W A} e _.
Arguments bind {W A B} c k _.
Arguments try_catch {W A} c h _.
Arguments lift {W A} r _.
Arguments log {W} ev _.
Arguments call {W} ev f arg request _.
Arguments console_error {W} e _.
Arguments set_store {W} v _.
Arguments init_call {W} st.
Arguments init_resume {W} p _.
Arguments init {W} _.
Arguments request {R} _.
Arguments send {R} _ _ _.
Arguments is_disabled {W} c.
Arguments entry {W} actionConfig.
Arguments callable {W engine} actionFn.
Arguments rawHandler {W engine R} args _.
Arguments dispatch_all {W engine R} reqs st.
Arguments pagesApiHandler {W engine} req _.
Arguments init_calls {W} n st.
Arguments init_resumes {W} ps st.

(** ** The validation steps as the specification lists them

    Steps 1 to 5 of the algorithm, each as a condition of its own on the
    instance and the request, with the message it fails with, in the listed
    order.  [first_failure] is the message of the first condition that is met. *)

Section Validation.

Context {W : Type}.

(** The name the request carries, if any. *)
Definition action_of (req : NextToolRequest) : option string :=
  match body req with
  | Some b => action b
  | None => None
  end.

Definition name_of (req : NextToolRequest) : string :=
  match action_of req with Some a => a | None => "" end.

(** 1. the request carries no body at all *)
Definition no_body (req : NextToolRequest) : bool :=
  match body req with None => true | Some _ => false end.

(** 2. the body carries no action *)
Definition no_action (req : NextToolRequest) : bool :=
  match action_of req with
  | None => true
  | Some a => String.eqb a ""
  end.

(** 3. the action is absent from the handler mapping *)
Definition no_handler (t : NextTool W) (req : NextToolRequest) : bool :=
  match actionMap t !! name_of req with None => true | Some _ => false end.

(** 4. the configuration's action mapping is entirely absent *)
Definition no_action_mapping (t : NextTool W) : bool :=
  match actions (config t) with None => true | Some _ => false end.

(** 5. the action mapping has no entry for the action, or the entry is
    marked disabled *)
Definition entry_missing_or_disabled (t : NextTool W) (req : NextToolRequest) : bool :=
  match actions (config t) with
  | None => false
  | Some m =>
      match m !! name_of req with
      | None => true
      | Some c => match disabled c with Some true => true | _ => false end
      end
  end.

Definition unknown_action_msg (a : string) : string :=
  "Unknown action " +:+ dquote +:+ a +:+ dquote.

Definition not_enabled_msg (a : string) : string :=
  "Action " +:+ dquote +:+ a +:+ dquote +:+ " not enabled".

Definition validation_steps (t : NextTool W) (req : NextToolRequest)
    : list (bool * string) :=
  [ (no_body req, "No body");
    (no_action req, "No action");
    (no_handler t req, unknown_action_msg (name_of req));
    (no_action_mapping t, not_enabled_msg (name_of req));
    (entry_missing_or_disabled t req, not_enabled_msg (name_of req)) ].

Definition first_failure (t : NextTool W) (req : NextToolRequest) : option string :=
  match List.find fst (validation_steps t req) with
  | Some (_, msg) => Some msg
  | None => None
  end.

End Validation.

(** ** Envelope shape *)

Definition is_string (v : value) : bool :=
  match v with VStr _ => true | _ => false end.

(** Exactly one of the keys [data] and [error]. *)
Definition one_of_data_error (payload : value) : bool :=
  xorb (has_field "data" payload) (has_field "error" payload).

(** Exactly one of [{ data }] and [{ error: string }]. *)
Definition response_envelope (payload : value) : bool :=
  one_of_data_error payload
  && (negb (has_field "error" payload) || is_string (field "error" payload)).

(** A [send] that keeps what it is given. *)
Definition record_send (payload : value) (init : option ResponseInit)
    : value * option ResponseInit := (payload, init).

(** An absent hook leaves its argument as it is. *)
Definition run_hook {W : Type} (hook : option (NextToolActionFn W))
    (arg : value) (req : NextToolRequest) (w : W) : completion value * W :=
  match hook with
  | Some f => f arg req w
  | None => (Normal arg, w)
  end.

(** The trace entry of a hook: none when the hook is absent. *)
Definition hook_event {W : Type} (ev : value -> event)
    (hook : option (NextToolActionFn W)) (arg : value) : list event :=
  match hook with
  | Some _ => [ev arg]
  | None => []
  end.

(** ** The guarded part of [rawHandler]

    The [try] block with its [catch] clause, as [rawHandler] runs it once the
    request has passed the checks and [init] has returned. *)

Definition caught {W R : Type} (send : value -> option ResponseInit -> R)
    (error : value) : M W R :=
  bind (console_error error) (fun _ =>
  bind (lift (get_message error)) (fun message =>
  ret (send (VObj [("error", message)]) (Some {| status := Some 500 |})))).

(** [actionFn] is what is there to call, if anything ([callable]);
    [actionConfig] holds the fields read from the entry ([entry]). *)
Definition invoke {W : Type} `{engine : Engine} {R : Type}
    (send : value -> option ResponseInit -> R)
    (request : NextToolRequest) (action : string) (input : value)
    (actionFn : option (NextToolActionFn W)) (actionConfig : NextToolActionConfig W)
    : M W R :=
  try_catch
    (bind (match before actionConfig with
           | Some f => call (EvBefore action) f input request
           | None => ret input
           end) (fun before =>
     bind (match actionFn with
           | Some f => call (EvAction action) f before request
           | None => throw (EngineTypeError action before)
           end) (fun res =>
     bind (match after actionConfig with
           | Some f => call (EvAfter action) f res request
           | None => ret res
           end) (fun data =>
     ret (send (VObj [("data", data)]) None)))))
    (caught send).

(** The checks of [rawHandler], up to [await this.init()]: the message it
    stops with, or [None] when it goes on. *)
Definition stopped {W : Type} (t : NextTool W) (req : NextToolRequest) : option string :=
  match body req with
  | None => Some "No body"
  | Some b =>
    match action b with
    | None => Some "No action"
    | Some a =>
      if String.eqb a "" then Some "No action"
      else
        match get (actionMap t) a with
        | Absent => Some ("Unknown action " +:+ dquote +:+ a +:+ dquote)
        | _ =>
          match actions (config t) with
          | None => Some ("Action " +:+ dquote +:+ a +:+ dquote +:+ " not enabled")
          | Some m =>
            match get m a with
            | Absent => Some ("Action " +:+ dquote +:+ a +:+ dquote +:+ " not enabled")
            | c =>
              if is_disabled (entry c)
              then Some ("Action " +:+ dquote +:+ a +:+ dquote +:+ " not enabled")
              else None
            end
          end
        end
    end
  end.

(** What [rawHandler] calls and the fields it reads once the checks are
    passed. *)
Definition found_handler {W : Type} `{engine : Engine} (t : NextTool W) (a : string)
    : option (NextToolActionFn W) :=
  callable (get (actionMap t) a).

Definition found_entry {W : Type} (t : NextTool W) (a : string) : NextToolActionConfig W :=
  match actions (config t) with
  | Some m => entry (get m a)
  | None => entry Absent
  end.

(** An action the instance will run: a truthy name with a handler and an
    entry of the action mapping that is not disabled. *)
Definition enabled_action {W : Type} (t : NextTool W) (a : string)
    (h : NextToolActionFn W) (c : NextToolActionConfig W) : Prop :=
  a ≠ "" ∧ actionMap t !! a = Some h ∧
  ∃ m, actions (config t) = Some m ∧ m !! a = Some c ∧ is_disabled c = false.

(** The request [{ body: { action: a, input: i }, headers }]. *)
Definition request_for (a : string) (i : value)
    (hs : option (list (string * string))) : NextToolRequest :=
  {| body := Some {| action := Some a; input := i |}; headers := hs |}.

(** The state user code and the catch clause leave behind: the instance is
    not touched, the world and the trace move on. *)
Definition moved {W : Type} (st : state W) (w : W) (evs : list event) : state W :=
  {| this := this st; world := w; trace := trace st ++ evs |}.

(** Trace entries of hooks, handlers and the console: no call of the factory. *)
Definition user_events (evs : list event) : Prop :=
  Forall (λ ev, is_factory_call ev = false) evs.

(** What the trace says about the store: while the store is falsy no call
    of the factory has resolved to a truthy value, and at most one ever has. *)
Definition store_invariant {W : Type} (st : state W) : Prop :=
  if truthy (store (this st)) then (factory_hits (trace st) ≤ 1)%nat
  else factory_hits (trace st) = 0%nat.

(** A success envelope read from outside: it has a [data] field holding
    [data], and no [error] field. *)
Definition carries_data (payload data : value) : Prop :=
  has_field "data" payload = true
  ∧ field "data" payload = data
  ∧ has_field "error" payload = false.

(** ** [namespaceFromEnv] and [namespaceFromVercel]

    [process.env] is the finite map of the variables that are set.
    [toLowerCase] is the method of the language's strings; the functions are
    modelled for any such method. *)

(** Truthiness of a [string | undefined]. *)
Definition truthy_str (s : option string) : bool :=
  match s with
  | Some s => negb (String.eqb s "")
  | None => false
  end.

(** [Array.prototype.join]: an [undefined] element is written as the empty
    string. *)
Definition join (sep : string) (parts : list (option string)) : string :=
  String.concat sep (List.map (fun p => match p with Some s => s | None => "" end) parts).

Section Namespace.

Variable toLowerCase : string -> string.

Definition namespaceFromVercel (env : gmap string string) : string :=
  toLowerCase
    (join ":" [env !! "VERCEL_GIT_REPO_OWNER";
               env !! "VERCEL_GIT_REPO_SLUG";
               env !! "VERCEL_ENV"]).

Definition namespaceFromEnv (env : gmap string string) (project : option string)
    : string :=
  if truthy_str (env !! "VERCEL") then namespaceFromVercel env
  else
    toLowerCase
      (join ":" (List.filter truthy_str
                   [ (if truthy_str project then project else Some "localhost");
                     env !! "NODE_ENV" ])).

End Namespace.

(** The variables [namespaceFromEnv] reads. *)
Definition namespace_variables : list string :=
  ["VERCEL"; "NODE_ENV"; "VERCEL_GIT_REPO_OWNER"; "VERCEL_GIT_REPO_SLUG"; "VERCEL_ENV"].

(** ** Concrete instances

    The world is a counter of the user code that has run. *)

(** A handler or hook that wraps its argument under the key [k]. *)
Definition ex_wrap (k : string) : NextToolActionFn nat :=
  fun v _ w => (Normal (VObj [(k, v)]), S w).

Definition ex_echo : NextToolActionFn nat :=
  fun v _ w => (Normal v, w).

(** A handler that throws [e]. *)
Definition ex_throwing (e : value) : NextToolActionFn nat :=
  fun _ _ w => (Throw e, S w).

(** A factory that opens a new store each time it is called. *)
Definition ex_counting_factory : NextToolStorePromise nat :=
  fun w => (Normal (VNum (Z.of_nat (S w))), S w).

(** A factory whose store is not there on the first call. *)
Definition ex_late_factory : NextToolStorePromise nat :=
  fun w => (match w with O => Normal VUndefined | S _ => Normal (VStr "db") end, S w).

Definition ex_hooked : NextToolActionConfig nat :=
  {| after := Some (ex_wrap "a"); before := Some (ex_wrap "b"); disabled := None |}.

Definition ex_plain : NextToolActionConfig nat :=
  {| after := None; before := None; disabled := None |}.

Definition ex_off : NextToolActionConfig nat :=
  {| after := None; before := None; disabled := Some true |}.

Definition ex_config : NextToolConfig nat :=
  {| actions := Some (<["greet" := ex_hooked]> (<["echo" := ex_plain]>
                     (<["off" := ex_off]> (<["ghost" := ex_plain]>
                     (<["" := ex_plain]> ∅))))) |}.

Definition ex_actions (e : value) : gmap string (NextToolActionFn nat) :=
  <["greet" := ex_wrap "h"]> (<["echo" := ex_echo]> (<["off" := ex_echo]>
  (<["boom" := ex_throwing e]> (<["idle" := ex_echo]> (<["" := ex_echo]> ∅))))).

Definition ex_config_boom : NextToolConfig nat :=
  {| actions := Some (<["boom" := ex_hooked]> ∅) |}.

Definition ex_tool : NextTool nat :=
  constructor ex_config (Some (StoreFn ex_counting_factory)) (Some (ex_actions VNull)).

Definition ex_tool_boom (e : value) : NextTool nat :=
  constructor ex_config_boom (Some (StoreFn ex_counting_factory)) (Some (ex_actions e)).

Definition ex_tool_late : NextTool nat :=
  constructor ex_config (Some (StoreFn ex_late_factory)) (Some (ex_actions VNull)).

Definition ex_tool_unconfigured : NextTool nat :=
  constructor {| actions := None |} None (Some (ex_actions VNull)).

(** The instances of the end-to-end scenarios: one handler, one entry, no
    store. *)
Definition ex_echo_tool : NextTool nat :=
  constructor {| actions := Some {[ "echo" := ex_plain ]} |} None
    (Some {[ "echo" := ex_echo ]}).

Definition ex_greet_tool : NextTool nat :=
  constructor {| actions := Some {[ "greet" := ex_off ]} |} None
    (Some {[ "greet" := ex_echo ]}).

(** A handler registered under a key of [Object.prototype], and an action
    mapping without an entry for it. *)
Definition ex_tool_shadow : NextTool nat :=
  constructor {| actions := Some ∅ |} None (Some {[ "toString" := ex_echo ]}).

(** An engine with two wordings. *)
#[global] Instance ex_engine : Engine :=
  {| type_error_message callee _ :=
       if String.eqb callee "__proto__" then "actionFn is not a function"
       else "Cannot convert undefined or null to object" |}.

Definition ex_request (a : option string) (i : value) : NextToolRequest :=
  {| body := Some {| action := a; input := i |}; headers := None |}.


Definition ex_args (req : NextToolRequest) : NextToolHandlerArgs (value * option ResponseInit) :=
  {| request := req; send := record_send |}.

(** Lower case on the letters A to Z, for the instances. *)
Definition ex_lower_char (ch : ascii) : ascii :=
  let n := nat_of_ascii ch in
  if ((65 <=? n) && (n <=? 90))%nat then ascii_of_nat (n + 32) else ch.

Fixpoint ex_lower (s : string) : string :=
  match s with
  | EmptyString => EmptyString
  | String ch rest => String (ex_lower_char ch) (ex_lower rest)
  end.

Definition ex_env_vercel : gmap string string :=
  <["VERCEL" := "1"]> (<["VERCEL_GIT_REPO_OWNER" := "Acme"]>
  (<["VERCEL_GIT_REPO_SLUG" := "Shop"]> (<["NODE_ENV" := "production"]> ∅))).

Definition ex_env_local : gmap string string :=
  <["NODE_ENV" := "Test"]> (<["HOME" := "/root"]> ∅).

(** A factory that rejects. *)
Definition ex_failing_factory : NextToolStorePromise nat :=
  fun w => (Throw (Error "down"), S w).

Definition ex_tool_down : NextTool nat :=
  constructor ex_config (Some (StoreFn ex_failing_factory)) (Some (ex_actions VNull)).

Definition ex_tool_storeless : NextTool nat :=
  constructor ex_config None (Some (ex_actions VNull)).

Definition ex_tool_precomputed : NextTool nat :=
  constructor ex_config (Some (StoreValue (VStr "db"))) (Some (ex_actions VNull)).



(** * Properties *)

Section Properties.

Context {W : Type} `{engine : Engine} {R : Type}.
Implicit Types (st : state W) (args : NextToolHandlerArgs R)
  (req : NextToolRequest) (t : NextTool W).

Lemma moved_nil st : moved st (world st) [] = st.
Proof. destruct st; unfold moved; simpl. by rewrite app_nil_r. Qed.

Lemma moved_moved st w evs w' evs' :
  moved (moved st w evs) w' evs' = moved st w' (evs ++ evs').
Proof. unfold moved; simpl. by rewrite app_assoc. Qed.

(** *** Lookups *)

Lemma get_own {T : Type} (m : gmap string T) k x : m !! k = Some x → get m k = Own x.
Proof. intros Hk. unfold get. by rewrite Hk. Qed.

Lemma get_not_inherited {T : Type} (m : gmap string T) k :
  inherited k = false →
  get m k = match m !! k with Some x => Own x | None => Absent end.
Proof. intros Hk. unfold get. by rewrite Hk. Qed.

(** *** The checks *)

Lemma eqb_empty_false (a : string) : a ≠ "" → String.eqb a "" = false.
Proof. intros H. by apply String.eqb_neq. Qed.

(** A request the checks stop is answered with their message, status 400,
    and nothing else happens. *)
Lemma rawHandler_stopped args st msg :
  stopped (this st) (request args) = Some msg →
  rawHandler args st
  = (Normal (send args (error_envelope (VStr msg)) (with_status 400)), st).
Proof.
  unfold stopped, rawHandler.
  destruct (body (request args)) as [b|]; [|by intros [= <-]].
  destruct (action b) as [a|]; [|by intros [= <-]].
  destruct (String.eqb a ""); [by intros [= <-]|].
  destruct (get (actionMap (this st)) a) as [h|k|]; try by intros [= <-].
  all: destruct (actions (config (this st))) as [m|]; [|by intros [= <-]].
  all: destruct (get m a) as [c|k'|]; try by intros [= <-].
  all: destruct (is_disabled _); by intros [= <-].
Qed.

(** A request the checks let through: [rawHandler] is [init] followed by the
    guarded part, on what the two lookups found. *)
Lemma rawHandler_passed args st :
  stopped (this st) (request args) = None →
  ∃ a i,
    request args = request_for a i (headers (request args))
    ∧ a ≠ ""
    ∧ rawHandler args st
      = bind init (fun _ => invoke (send args) (request args) a i
                              (found_handler (this st) a) (found_entry (this st) a)) st.
Proof.
  unfold stopped, rawHandler, found_handler, found_entry.
  destruct (request args) as [[[[a|] i]|] hs] eqn:Hreq; simpl; try discriminate.
  destruct (String.eqb a "") eqn:Ea; [discriminate|].
  intros Hs. exists a, i. split; [done|]. split; [by apply String.eqb_neq|].
  destruct (get (actionMap (this st)) a) as [h|k|]; try discriminate.
  all: destruct (actions (config (this st))) as [m|]; [|discriminate].
  all: destruct (get m a) as [c|k'|]; try discriminate.
  all: simpl in *; try destruct (is_disabled c); try discriminate; reflexivity.
Qed.

(** For a name [Object.prototype] does not define, the checks of the code are
    the five conditions of the specification. *)
Lemma stopped_first_failure t req :
  inherited (name_of req) = false → stopped t req = first_failure t req.
Proof.
  unfold stopped, first_failure, validation_steps, no_body, no_action,
    no_handler, no_action_mapping, entry_missing_or_disabled, name_of, action_of.
  destruct (body req) as [b|]; simpl; [|done].
  destruct (action b) as [a|]; simpl; [|done].
  destruct (String.eqb a "") eqn:Ea; simpl; [done|].
  intros Ha. rewrite (get_not_inherited _ a Ha).
  destruct (actionMap t !! a) as [h|]; simpl; [|done].
  destruct (actions (config t)) as [m|]; simpl; [|done].
  rewrite (get_not_inherited _ a Ha). unfold is_disabled.
  destruct (m !! a) as [c|]; simpl; [|done].
  by destruct (disabled c) as [[|]|].
Qed.

(** A request for an enabled action gets past the checks: [rawHandler] is
    [init] followed by the guarded part. *)
Lemma rawHandler_enabled args st a i hs h c :
  request args = request_for a i hs →
  enabled_action (this st) a h c →
  rawHandler args st
  = bind init (fun _ => invoke (send args) (request args) a i (Some h) c) st.
Proof.
  intros Hreq (Ha & Hh & m & Hm & Hc & Hd).
  unfold rawHandler. rewrite Hreq. simpl.
  rewrite (eqb_empty_false a Ha), (get_own _ a h Hh), Hm, (get_own _ a c Hc); simpl.
  by rewrite Hd.
Qed.

Lemma rawHandler_after_init args st st1 a i hs h c :
  request args = request_for a i hs →
  enabled_action (this st) a h c →
  init st = (Normal tt, st1) →
  rawHandler args st = invoke (send args) (request args) a i (Some h) c st1.
Proof.
  intros Hreq Hen Hinit. rewrite (rawHandler_enabled args st a i hs h c Hreq Hen).
  unfold bind. by rewrite Hinit.
Qed.

(** When [init] rejects, so does [rawHandler]: the call is outside the
    [try] block. *)
Lemma rawHandler_init_throws args st st1 a i hs h c e :
  request args = request_for a i hs →
  enabled_action (this st) a h c →
  init st = (Throw e, st1) →
  rawHandler args st = (Throw e, st1).
Proof.
  intros Hreq Hen Hinit. rewrite (rawHandler_enabled args st a i hs h c Hreq Hen).
  unfold bind. by rewrite Hinit.
Qed.

(** A request that meets none of the five conditions names an enabled action. *)
Lemma first_failure_None t req :
  first_failure t req = None →
  ∃ a i h c, req = request_for a i (headers req) ∧ enabled_action t a h c.
Proof.
  unfold first_failure, validation_steps, no_body, no_action,
    no_handler, no_action_mapping, entry_missing_or_disabled, name_of, action_of.
  destruct req as [[[[a|] i]|] hs]; simpl; try discriminate.
  destruct (String.eqb a "") eqn:Ea; simpl; [discriminate|].
  destruct (actionMap t !! a) as [h|] eqn:Eh; simpl; [|discriminate].
  destruct (actions (config t)) as [m|] eqn:Em; simpl; [|discriminate].
  destruct (m !! a) as [c|] eqn:Ec; simpl; [|discriminate].
  destruct (disabled c) as [[|]|] eqn:Ed; simpl; try discriminate.
  all: intros _; exists a, i, h, c; split; [reflexivity|].
  all: split; [by apply String.eqb_neq|]; split; [done|].
  all: exists m; unfold is_disabled; rewrite Ed; done.
Qed.

(** *** The guarded part *)

Lemma caught_eq (snd_fn : value → option ResponseInit → R) e st :
  caught snd_fn e st
  = (match get_message e with
     | Normal m => Normal (snd_fn (error_envelope m) (with_status 500))
     | Throw te => Throw te
     end, moved st (world st) [EvConsoleError e]).
Proof.
  unfold caught, bind, console_error, log, lift, ret, moved; simpl.
  destruct (get_message e); reflexivity.
Qed.

Lemma hook_step (ev : value → event) (hook : option (NextToolActionFn W)) arg req st :
  match hook with
  | Some f => call ev f arg req
  | None => ret arg
  end st
  = (fst (run_hook hook arg req (world st)),
     moved st (snd (run_hook hook arg req (world st))) (hook_event ev hook arg)).
Proof.
  destruct hook as [f|]; simpl.
  - unfold call, moved. destruct (f arg req (world st)); reflexivity.
  - unfold ret. by rewrite moved_nil.
Qed.

Lemma call_eq (ev : value → event) (f : NextToolActionFn W) arg req st :
  call ev f arg req st
  = (fst (f arg req (world st)), moved st (snd (f arg req (world st))) [ev arg]).
Proof. unfold call, moved. destruct (f arg req (world st)); reflexivity. Qed.

Section Invoke.

Variables (snd_fn : value → option ResponseInit → R) (req : NextToolRequest)
  (a : string) (i : value) (h : NextToolActionFn W) (c : NextToolActionConfig W).

Lemma invoke_returns st x y z w1 w2 w3 :
  run_hook (before c) i req (world st) = (Normal x, w1) →
  h x req w1 = (Normal y, w2) →
  run_hook (after c) y req w2 = (Normal z, w3) →
  invoke snd_fn req a i (Some h) c st
  = (Normal (snd_fn (data_envelope z) None),
     moved st w3 (hook_event (EvBefore a) (before c) i ++ [EvAction a x]
                  ++ hook_event (EvAfter a) (after c) y)).
Proof.
  intros Hb Hh Ha. unfold invoke, try_catch, bind.
  rewrite hook_step, Hb; simpl.
  rewrite call_eq; simpl. rewrite Hh; simpl.
  rewrite hook_step; simpl. rewrite Ha; simpl.
  unfold ret. by rewrite !moved_moved.
Qed.

Lemma invoke_before_throws (f : option (NextToolActionFn W)) st e w1 :
  run_hook (before c) i req (world st) = (Throw e, w1) →
  invoke snd_fn req a i f c st
  = caught snd_fn e (moved st w1 (hook_event (EvBefore a) (before c) i)).
Proof.
  intros Hb. unfold invoke, try_catch, bind.
  by rewrite hook_step, Hb.
Qed.

(** [actionFn] is not a function: the call throws before anything runs. *)
Lemma invoke_not_callable st x w1 :
  run_hook (before c) i req (world st) = (Normal x, w1) →
  invoke snd_fn req a i None c st
  = caught snd_fn (EngineTypeError a x)
      (moved st w1 (hook_event (EvBefore a) (before c) i)).
Proof.
  intros Hb. unfold invoke, try_catch, bind.
  by rewrite hook_step, Hb.
Qed.

Lemma invoke_action_throws st x e w1 w2 :
  run_hook (before c) i req (world st) = (Normal x, w1) →
  h x req w1 = (Throw e, w2) →
  invoke snd_fn req a i (Some h) c st
  = caught snd_fn e
      (moved st w2 (hook_event (EvBefore a) (before c) i ++ [EvAction a x])).
Proof.
  intros Hb Hh. unfold invoke, try_catch, bind.
  rewrite hook_step, Hb; simpl.
  rewrite call_eq; simpl. rewrite Hh; simpl.
  by rewrite !moved_moved.
Qed.

Lemma invoke_after_throws st x y e w1 w2 w3 :
  run_hook (before c) i req (world st) = (Normal x, w1) →
  h x req w1 = (Normal y, w2) →
  run_hook (after c) y req w2 = (Throw e, w3) →
  invoke snd_fn req a i (Some h) c st
  = caught snd_fn e
      (moved st w3 (hook_event (EvBefore a) (before c) i ++ [EvAction a x]
                    ++ hook_event (EvAfter a) (after c) y)).
Proof.
  intros Hb Hh Ha. unfold invoke, try_catch, bind.
  rewrite hook_step, Hb; simpl.
  rewrite call_eq; simpl. rewrite Hh; simpl.
  rewrite hook_step; simpl. rewrite Ha; simpl.
  by rewrite !moved_moved.
Qed.

End Invoke.

(** *** [init] *)

Lemma init_cases st :
  (init st = (Normal tt, st)
   ∧ (truthy (store (this st)) = true ∨ getStoreFn (this st) = None))
  ∨ (truthy (store (this st)) = false
     ∧ ∃ f w', getStoreFn (this st) = Some f
       ∧ ((∃ v, f (world st) = (Normal v, w')
                ∧ init st = set_store v (moved st w' [EvGetStoreFn (Normal v)]))
          ∨ (∃ e, f (world st) = (Throw e, w')
                  ∧ init st = (Throw e, moved st w' [EvGetStoreFn (Throw e)])))).
Proof.
  unfold init, init_call.
  destruct (truthy (store (this st))) eqn:Hs; simpl; [left; auto|].
  destruct (getStoreFn (this st)) as [f|] eqn:Hf; simpl; [|left; auto].
  right. split; [done|]. destruct (f (world st)) as [[v|e] w'] eqn:Hfw.
  - exists f, w'. split; [done|]. left. by exists v.
  - exists f, w'. split; [done|]. right. by exists e.
Qed.

Lemma init_trace st r st1 :
  init st = (r, st1) →
  trace st1 = trace st ∨ ∃ p, trace st1 = trace st ++ [EvGetStoreFn p].
Proof.
  destruct (init_cases st)
    as [[-> _] | (_ & f & w' & _ & [(v & _ & ->) | (e & _ & ->)])].
  - intros [= _ <-]. by left.
  - unfold set_store; simpl. intros [= _ <-]. right. by exists (Normal v).
  - intros [= _ <-]. right. by exists (Throw e).
Qed.

(** *** Dispatch of an enabled action *)

(** C1. For a dispatch of an enabled action, once [init] has returned in
    state [st1] (having added to the trace at most a call of the factory):
    with hooks [b] and [af] that resolve, the response is [send] applied to a
    success envelope, without a status, whose [data] field holds what [af]
    makes of what the handler makes of what [b] makes of the input, and [b],
    the handler and [af] are each invoked once, in this order; without a
    [before] hook the handler is called on the input itself; without an
    [after] hook the data is what the handler resolved to. *)
Theorem before_action_after args st st1 a i hs h c :
  request args = request_for a i hs →
  enabled_action (this st) a h c →
  init st = (Normal tt, st1) →
  (trace st1 = trace st ∨ ∃ p, trace st1 = trace st ++ [EvGetStoreFn p])
  ∧ (∀ b af x y z w1 w2 w3,
      before c = Some b → after c = Some af →
      b i (request args) (world st1) = (Normal x, w1) →
      h x (request args) w1 = (Normal y, w2) →
      af y (request args) w2 = (Normal z, w3) →
      ∃ payload,
        rawHandler args st
        = (Normal (send args payload None),
           moved st1 w3 [EvBefore a i; EvAction a x; EvAfter a y])
        ∧ carries_data payload z)
  ∧ (∀ y z w2 w3,
      before c = None →
      h i (request args) (world st1) = (Normal y, w2) →
      run_hook (after c) y (request args) w2 = (Normal z, w3) →
      ∃ payload,
        rawHandler args st
        = (Normal (send args payload None),
           moved st1 w3 (EvAction a i :: hook_event (EvAfter a) (after c) y))
        ∧ carries_data payload z)
  ∧ (∀ x y w1 w2,
      after c = None →
      run_hook (before c) i (request args) (world st1) = (Normal x, w1) →
      h x (request args) w1 = (Normal y, w2) →
      ∃ payload,
        rawHandler args st
        = (Normal (send args payload None),
           moved st1 w2 (hook_event (EvBefore a) (before c) i ++ [EvAction a x]))
        ∧ carries_data payload y).
Proof.
  intros Hreq Hen Hinit.
  rewrite (rawHandler_after_init args st st1 a i hs h c Hreq Hen Hinit).
  split; [by eapply init_trace|]. repeat split.
  - intros b af x y z w1 w2 w3 Hb Haf Hbx Hhy Hafz.
    exists (VObj [("data", z)]). split; [|by repeat split].
    rewrite (invoke_returns _ _ a i h c st1 x y z w1 w2 w3).
    + by rewrite Hb, Haf.
    + by rewrite Hb.
    + done.
    + by rewrite Haf.
  - intros y z w2 w3 Hb Hhy Hafz.
    exists (VObj [("data", z)]). split; [|by repeat split].
    rewrite (invoke_returns _ _ a i h c st1 i y z (world st1) w2 w3).
    + by rewrite Hb.
    + by rewrite Hb.
    + done.
    + done.
  - intros x y w1 w2 Haf Hbx Hhy.
    exists (VObj [("data", y)]). split; [|by repeat split].
    rewrite (invoke_returns _ _ a i h c st1 x y y w1 w2 w2).
    + by rewrite Haf.
    + done.
    + done.
    + by rewrite Haf.
Qed.

(** *** Validation *)


(** X17. A request that names an action which has no handler and is not a
    key of [Object.prototype] is answered with "Unknown action" and status
    400, whatever the configuration says about that name. *)
Theorem unknown_action_own_names args st a i hs :
  request args = request_for a i hs →
  a ≠ "" →
  inherited a = false →
  actionMap (this st) !! a = None →
  rawHandler args st
  = (Normal (send args (error_envelope (VStr (unknown_action_msg a)))
               (with_status 400)), st).
Proof.
  intros Hreq Ha Hi Hh. unfold rawHandler. rewrite Hreq; simpl.
  by rewrite (eqb_empty_false a Ha), (get_not_inherited _ a Hi), Hh.
Qed.

(** X18. A request that names an action with a handler is answered with
    "Action ... not enabled" and status 400, the state as it was, when the
    action mapping is absent, or its entry for the name is disabled, or it
    has no entry for the name and the name is not a key of
    [Object.prototype]. *)
Theorem not_enabled_own_names args st a i hs h :
  request args = request_for a i hs →
  a ≠ "" →
  actionMap (this st) !! a = Some h →
  (actions (config (this st)) = None
   ∨ ∃ m, actions (config (this st)) = Some m
          ∧ ((m !! a = None ∧ inherited a = false)
             ∨ ∃ c, m !! a = Some c ∧ disabled c = Some true)) →
  rawHandler args st
  = (Normal (send args (error_envelope (VStr (not_enabled_msg a)))
               (with_status 400)), st).
Proof.
  intros Hreq Ha Hh Hcfg. unfold rawHandler. rewrite Hreq; simpl.
  rewrite (eqb_empty_false a Ha), (get_own _ a h Hh).
  destruct Hcfg as [-> | (m & -> & [[Hm Hi] | (c & Hc & Hd)])]; [done| |].
  - by rewrite (get_not_inherited _ a Hi), Hm.
  - rewrite (get_own _ a c Hc); simpl. unfold is_disabled. by rewrite Hd.
Qed.

(** C9. A request whose body carries the empty string as action is answered
    with "No action" and status 400, on every instance: also on one that has
    a handler and an enabled entry under the empty name. *)
Theorem empty_action (snd_fn : value → option ResponseInit → R) st i hs :
  rawHandler {| request := request_for "" i hs; send := snd_fn |} st
  = (Normal (snd_fn (error_envelope (VStr "No action")) (with_status 400)), st).
Proof. reflexivity. Qed.

(** *** Errors thrown by user code *)

(** C5, for thrown values that can be asked for their message (all but
    [undefined] and [null]).  Whichever of [before], the handler and [after]
    throws [e], the error is logged once and the response is the envelope
    with [e]'s message and status 500; user code after the throw does not
    run (no [after] when the handler throws) and no data is returned. *)
Theorem throw_caught args st st1 a i hs h c e m :
  request args = request_for a i hs →
  enabled_action (this st) a h c →
  init st = (Normal tt, st1) →
  get_message e = Normal m →
  (∀ w1,
      run_hook (before c) i (request args) (world st1) = (Throw e, w1) →
      rawHandler args st
      = (Normal (send args (error_envelope m) (with_status 500)),
         moved st1 w1 (hook_event (EvBefore a) (before c) i ++ [EvConsoleError e])))
  ∧ (∀ x w1 w2,
      run_hook (before c) i (request args) (world st1) = (Normal x, w1) →
      h x (request args) w1 = (Throw e, w2) →
      rawHandler args st
      = (Normal (send args (error_envelope m) (with_status 500)),
         moved st1 w2 (hook_event (EvBefore a) (before c) i
                       ++ [EvAction a x; EvConsoleError e])))
  ∧ (∀ x y w1 w2 w3,
      run_hook (before c) i (request args) (world st1) = (Normal x, w1) →
      h x (request args) w1 = (Normal y, w2) →
      run_hook (after c) y (request args) w2 = (Throw e, w3) →
      rawHandler args st
      = (Normal (send args (error_envelope m) (with_status 500)),
         moved st1 w3 (hook_event (EvBefore a) (before c) i ++ [EvAction a x]
                       ++ hook_event (EvAfter a) (after c) y ++ [EvConsoleError e]))).
Proof.
  intros Hreq Hen Hinit Hm.
  rewrite (rawHandler_after_init args st st1 a i hs h c Hreq Hen Hinit).
  repeat split.
  - intros w1 Hb.
    rewrite (invoke_before_throws _ _ a i c (Some h) st1 e w1 Hb), caught_eq, Hm.
    by rewrite moved_moved.
  - intros x w1 w2 Hb Hh.
    rewrite (invoke_action_throws _ _ a i h c st1 x e w1 w2 Hb Hh), caught_eq, Hm.
    rewrite moved_moved. by rewrite <- app_assoc.
  - intros x y w1 w2 w3 Hb Hh Ha.
    rewrite (invoke_after_throws _ _ a i h c st1 x y e w1 w2 w3 Hb Hh Ha), caught_eq, Hm.
    rewrite moved_moved. by rewrite <- !app_assoc.
Qed.

(** *** What a dispatch can do to the state *)

Lemma user_events_hook (ev : value → event) (hook : option (NextToolActionFn W)) arg :
  (∀ v, is_factory_call (ev v) = false) →
  user_events (hook_event ev hook arg).
Proof. intros Hev. destruct hook; simpl; repeat constructor. apply Hev. Qed.

Lemma user_events_app evs evs' :
  user_events evs → user_events evs' → user_events (evs ++ evs').
Proof. apply Forall_app_2. Qed.

(** The guarded part returns a success envelope or goes through the catch
    clause; either way only hooks and the handler have run. *)
Lemma invoke_cases (snd_fn : value → option ResponseInit → R) req a i
    (f : option (NextToolActionFn W)) c st :
  ∃ w evs, user_events evs ∧
    ((∃ z, invoke snd_fn req a i f c st
           = (Normal (snd_fn (data_envelope z) None), moved st w evs))
     ∨ (∃ e, invoke snd_fn req a i f c st = caught snd_fn e (moved st w evs))).
Proof.
  assert (Hb' : user_events (hook_event (EvBefore a) (before c) i))
    by (by apply user_events_hook).
  assert (Ha' : ∀ y, user_events (hook_event (EvAfter a) (after c) y))
    by (intros y; by apply user_events_hook).
  destruct (run_hook (before c) i req (world st)) as [[x|e] w1] eqn:Hb.
  - destruct f as [h|].
    + destruct (h x req w1) as [[y|e] w2] eqn:Hh.
      * destruct (run_hook (after c) y req w2) as [[z|e] w3] eqn:Ha.
        -- eexists w3, _. split; [|left; eexists; by eapply invoke_returns].
           apply user_events_app; [done|]. apply user_events_app; [|done].
           by repeat constructor.
        -- eexists w3, _. split; [|right; eexists; by eapply invoke_after_throws].
           apply user_events_app; [done|]. apply user_events_app; [|done].
           by repeat constructor.
      * eexists w2, _. split; [|right; eexists; by eapply invoke_action_throws].
        apply user_events_app; [done|]. by repeat constructor.
    + eexists w1, _. split; [|right; eexists; by eapply invoke_not_callable]. done.
  - eexists w1, _. split; [|right; eexists; by eapply invoke_before_throws]. done.
Qed.

End Properties.

Section Responses.

Context {W : Type} `{engine : Engine}.
Implicit Types (st : state W) (req : NextToolRequest).

(** The three ways a dispatch returns a response. *)
Lemma rawHandler_returns req st st' p i :
  rawHandler {| request := req; send := record_send |} st = (Normal (p, i), st') →
  (∃ msg, stopped (this st) req = Some msg
          ∧ p = error_envelope (VStr msg) ∧ i = with_status 400 ∧ st' = st)
  ∨ (∃ z, p = data_envelope z ∧ i = None)
  ∨ (∃ e m st2, p = error_envelope m ∧ i = with_status 500
                ∧ get_message e = Normal m
                ∧ st' = moved st2 (world st2) [EvConsoleError e]).
Proof.
  destruct (stopped (this st) req) as [msg|] eqn:Hs.
  - rewrite (rawHandler_stopped {| request := req; send := record_send |} st msg Hs).
    intros [= <- <- <-]. left. by exists msg.
  - destruct (rawHandler_passed {| request := req; send := record_send |} st Hs)
      as (a & v & _ & _ & ->).
    unfold bind. destruct (init st) as [[[]|e0] st1]; [|discriminate].
    destruct (invoke_cases record_send req a v (found_handler (this st) a)
                (found_entry (this st) a) st1)
      as (w & evs & _ & [[z Hz] | [e He]]); simpl in *; rewrite ?Hz, ?He.
    + intros [= <- <- <-]. right; left. by exists z.
    + rewrite caught_eq.
      destruct (get_message e) as [m|] eqn:Hm; [|discriminate].
      intros [= <- <- <-]. right; right. by exists e, m, (moved st1 w evs).
Qed.

(** C10. A dispatch that ends in a client-input error (status 400) has
    returned before [init]: the state is as it was, so the store field is
    unchanged and the factory has not been called. *)
Theorem client_error_before_init req st st' p :
  rawHandler {| request := req; send := record_send |} st
  = (Normal (p, with_status 400), st') →
  st' = st
  ∧ store (this st') = store (this st)
  ∧ factory_calls (trace st') = factory_calls (trace st).
Proof.
  intros Hrun.
  destruct (rawHandler_returns req st st' p _ Hrun)
    as [(msg & _ & _ & _ & ->) | [(z & _ & Hi) | (e & m & st2 & _ & Hi & _)]];
    done.
Qed.

(** C8, for dispatches that return a response.  The envelope has exactly
    one of the keys [data] and [error].  Without a status it has the [data]
    field and no [error] field.  With status 400 or 500 it has the [error]
    field and no [data] field: with 400 the error is a string; with 500 it is
    the message read from the value that was caught and logged, a string
    when that value is an [Error]. *)
Theorem envelope_shape req st st' p i :
  rawHandler {| request := req; send := record_send |} st = (Normal (p, i), st') →
  one_of_data_error p = true
  ∧ (i = None ∨ i = with_status 400 ∨ i = with_status 500)
  ∧ (i = None → has_field "data" p = true ∧ has_field "error" p = false)
  ∧ (i = with_status 400 →
     has_field "error" p = true ∧ has_field "data" p = false
     ∧ is_string (field "error" p) = true)
  ∧ (i = with_status 500 →
     has_field "error" p = true ∧ has_field "data" p = false
     ∧ ∃ e tr, trace st' = tr ++ [EvConsoleError e]
               ∧ get_message e = Normal (field "error" p)
               ∧ ∀ msg, e = Error msg → field "error" p = VStr msg).
Proof.
  intros Hrun.
  destruct (rawHandler_returns req st st' p _ Hrun)
    as [(msg & _ & -> & -> & _) | [(z & -> & ->) | (e & m & st2 & -> & -> & Hm & ->)]].
  - repeat split; try done. by right; left.
  - repeat split; try done. by left.
  - repeat split; try done; [by right; right|].
    exists e, (trace st2). repeat split; try done.
    intros msg ->. simpl in *. congruence.
Qed.

End Responses.

Section Store.

Context {W : Type} `{engine : Engine} {R : Type}.
Implicit Types (st : state W) (args : NextToolHandlerArgs R)
  (reqs : list (NextToolHandlerArgs R)).

(** *** Counting factory calls *)

Lemma factory_calls_app (tr tr' : list event) :
  factory_calls (tr ++ tr') = (factory_calls tr + factory_calls tr')%nat.
Proof. unfold factory_calls. by rewrite filter_app, length_app. Qed.

Lemma factory_hits_app (tr tr' : list event) :
  factory_hits (tr ++ tr') = (factory_hits tr + factory_hits tr')%nat.
Proof. unfold factory_hits. by rewrite filter_app, length_app. Qed.

Lemma factory_calls_user evs : user_events evs → factory_calls evs = 0%nat.
Proof.
  unfold user_events, factory_calls. induction 1 as [|ev evs Hev _ IH]; [done|].
  rewrite filter_cons_False; [done|]. by rewrite Hev.
Qed.

Lemma factory_hits_user evs : user_events evs → factory_hits evs = 0%nat.
Proof.
  unfold user_events, factory_hits. induction 1 as [|ev evs Hev _ IH]; [done|].
  rewrite filter_cons_False; [done|]. by destruct ev.
Qed.

(** The guarded part leaves the instance alone and adds only user events. *)
Lemma invoke_state (snd_fn : value → option ResponseInit → R) req a i
    (f : option (NextToolActionFn W)) c st :
  ∃ w evs, user_events evs
           ∧ snd (invoke snd_fn req a i f c st) = moved st w evs.
Proof.
  destruct (invoke_cases snd_fn req a i f c st)
    as (w & evs & Hevs & [[z ->] | [e ->]]).
  - by exists w, evs.
  - rewrite caught_eq; simpl. rewrite moved_moved.
    exists w, (evs ++ [EvConsoleError e]). split; [|done].
    apply user_events_app; [done|]. by repeat constructor.
Qed.

(** *** One dispatch

    What one dispatch, however it ends, does to the store and the trace:
    at most one call of the factory, only while the store is falsy, and
    the store changes only by taking what that call resolved to. *)
Lemma rawHandler_step args st :
  ∃ pre evs,
    trace (snd (rawHandler args st)) = trace st ++ pre ++ evs
    ∧ user_events evs
    ∧ ((pre = [] ∧ store (this (snd (rawHandler args st))) = store (this st))
       ∨ (truthy (store (this st)) = false
          ∧ ∃ v, pre = [EvGetStoreFn (Normal v)]
                 ∧ store (this (snd (rawHandler args st))) = v)
       ∨ (truthy (store (this st)) = false
          ∧ ∃ e, pre = [EvGetStoreFn (Throw e)]
                 ∧ store (this (snd (rawHandler args st))) = store (this st))).
Proof.
  destruct (stopped (this st) (request args)) as [msg|] eqn:Hst.
  - rewrite (rawHandler_stopped args st msg Hst); simpl.
    exists [], []. split; [by rewrite app_nil_r|]. split; [constructor|]. by left.
  - destruct (rawHandler_passed args st Hst) as (a & v & _ & _ & ->).
    set (h := found_handler (this st) a). set (c := found_entry (this st) a).
    unfold bind.
    destruct (init_cases st)
      as [[-> _] | (Hs & f & w' & Hf & [(x & Hx & ->) | (e & He & ->)])].
    + destruct (invoke_state (send args) (request args) a v h c st)
        as (w & evs & Hevs & ->).
      exists [], evs. simpl. repeat split; auto.
    + unfold set_store; simpl.
      match goal with |- context [invoke _ _ _ _ _ _ ?s] => set (st1 := s) end.
      destruct (invoke_state (send args) (request args) a v h c st1)
        as (w & evs & Hevs & ->).
      exists [EvGetStoreFn (Normal x)], evs. simpl.
      split; [by rewrite <- app_assoc|]. split; [done|].
      right; left. split; [done|]. by exists x.
    + exists [EvGetStoreFn (Throw e)], []. simpl.
      split; [done|]. split; [constructor|].
      right; right. split; [done|]. by exists e.
Qed.

(** *** Sequences of dispatches *)

Lemma dispatch_all_settled reqs st :
  truthy (store (this st)) = true →
  store (this (dispatch_all reqs st)) = store (this st)
  ∧ factory_calls (trace (dispatch_all reqs st)) = factory_calls (trace st).
Proof.
  revert st. induction reqs as [|args reqs IH]; intros st Hs; simpl; [done|].
  destruct (rawHandler_step args st)
    as (pre & evs & Htr & Hevs & [[-> Hst] | [[Hf _] | [Hf _]]]);
    [|congruence..].
  destruct (IH (snd (rawHandler args st))) as [-> ->]; [by rewrite Hst|].
  split; [done|].
  rewrite Htr, factory_calls_app; simpl. rewrite (factory_calls_user evs Hevs). lia.
Qed.

Lemma factory_hits_one (r : completion value) :
  factory_hits [EvGetStoreFn r]
  = match r with Normal v => if truthy v then 1%nat else 0%nat | Throw _ => 0%nat end.
Proof.
  unfold factory_hits. destruct r as [v|e].
  - destruct (truthy v) eqn:Hv.
    + rewrite filter_cons_True; [done|]. simpl. by rewrite Hv.
    + rewrite filter_cons_False; [done|]. simpl. by rewrite Hv.
  - by rewrite filter_cons_False.
Qed.

Lemma rawHandler_invariant args st :
  store_invariant st → store_invariant (snd (rawHandler args st)).
Proof.
  unfold store_invariant.
  destruct (rawHandler_step args st)
    as (pre & evs & -> & Hevs & [[-> ->] | [[Hf (v & -> & ->)] | [Hf (e & -> & ->)]]]);
    rewrite !factory_hits_app, (factory_hits_user evs Hevs).
  - replace (factory_hits []) with 0%nat by done.
    destruct (truthy (store (this st))); lia.
  - rewrite Hf, factory_hits_one. intros ->. destruct (truthy v); lia.
  - rewrite Hf, factory_hits_one. lia.
Qed.

Lemma dispatch_all_invariant reqs st :
  store_invariant st → store_invariant (dispatch_all reqs st).
Proof.
  revert st. induction reqs as [|args reqs IH]; intros st Hinv; simpl; [done|].
  by apply IH, rawHandler_invariant.
Qed.

Lemma store_invariant_hits st : store_invariant st → (factory_hits (trace st) ≤ 1)%nat.
Proof. unfold store_invariant. destruct (truthy (store (this st))); lia. Qed.

(** C6, with truthiness where the claim says "set".  The store is
    [undefined] at construction.  A dispatch of an enabled action that finds
    the store falsy calls the factory and stores what it resolves to.  Once
    the store is truthy, no later dispatch calls the factory and the store
    keeps its value.  Over any sequence of dispatches on a new instance the
    factory resolves to a truthy value at most once. *)
Theorem store_materialised_once :
  (∀ cfg sarg am, store (constructor (W:=W) cfg sarg am) = VUndefined)
  ∧ (∀ args st a i hs h c f v w',
       request args = request_for a i hs →
       enabled_action (this st) a h c →
       truthy (store (this st)) = false →
       getStoreFn (this st) = Some f →
       f (world st) = (Normal v, w') →
       store (this (snd (rawHandler args st))) = v)
  ∧ (∀ reqs st,
       truthy (store (this st)) = true →
       store (this (dispatch_all reqs st)) = store (this st)
       ∧ factory_calls (trace (dispatch_all reqs st)) = factory_calls (trace st))
  ∧ (∀ reqs cfg sarg am (w : W),
       (factory_hits (trace (dispatch_all reqs (fresh (constructor cfg sarg am) w)))
        ≤ 1)%nat).
Proof.
  split; [done|]. split; [|split].
  - intros args st a i hs h c f v w' Hreq Hen Hs Hf Hfw.
    rewrite (rawHandler_enabled args st a i hs h c Hreq Hen). unfold bind.
    destruct (init_cases st)
      as [[_ [Ht | Hn]] | (_ & f' & w'' & Hf' & [(x & Hx & ->) | (e & He & _)])];
      try congruence.
    assert (f' = f) as -> by congruence. assert (x = v) as -> by congruence.
    unfold set_store; simpl.
    match goal with |- context [invoke _ _ _ _ _ _ ?s] => set (st1 := s) end.
    by destruct (invoke_state (send args) (request args) a i (Some h) c st1)
      as (w & evs & _ & ->).
  - apply dispatch_all_settled.
  - intros reqs cfg sarg am w. apply store_invariant_hits, dispatch_all_invariant.
    by unfold store_invariant.
Qed.

End Store.

Section Overlap.

Context {W : Type} `{engine : Engine} {R : Type}.
Implicit Types (st : state W) (args : NextToolHandlerArgs R).

(** A dispatch of an enabled action runs up to the [await] inside [init],
    and goes on from there when the promise of the factory has settled. *)
Lemma rawHandler_await args st a i hs h c :
  request args = request_for a i hs →
  enabled_action (this st) a h c →
  rawHandler args st
  = bind (init_resume (fst (init_call st)))
      (fun _ => invoke (send args) (request args) a i (Some h) c) (snd (init_call st)).
Proof.
  intros Hreq Hen. rewrite (rawHandler_enabled args st a i hs h c Hreq Hen).
  unfold bind, init. by destruct (init_call st).
Qed.

Lemma init_call_falsy st f :
  truthy (store (this st)) = false →
  getStoreFn (this st) = Some f →
  this (snd (init_call st)) = this st
  ∧ trace (snd (init_call st))
    = trace st ++ [EvGetStoreFn (fst (f (world st)))].
Proof.
  intros Hs Hf. unfold init_call. rewrite Hs, Hf; simpl.
  by destruct (f (world st)).
Qed.

(** Started together on an instance whose store is not set, [n] dispatches
    call the factory [n] times. *)
Lemma init_calls_count n st f :
  truthy (store (this st)) = false →
  getStoreFn (this st) = Some f →
  factory_calls (trace (snd (init_calls n st))) = (factory_calls (trace st) + n)%nat.
Proof.
  revert st. induction n as [|n IH]; intros st Hs Hf; simpl; [lia|].
  destruct (init_call_falsy st f Hs Hf) as [Hthis Htr].
  destruct (init_call st) as [p st1]; simpl in *.
  specialize (IH st1). destruct (init_calls n st1) as [ps st2]; simpl in *.
  rewrite IH, Htr by (by rewrite Hthis).
  rewrite factory_calls_app.
  replace (factory_calls [EvGetStoreFn (fst (f (world st)))]) with 1%nat by done.
  lia.
Qed.

End Overlap.

(** * The properties on the concrete instances *)

Lemma ex_greet_enabled (st : NextToolStorePromise nat) :
  enabled_action (constructor ex_config (Some (StoreFn st)) (Some (ex_actions VNull)))
    "greet" (ex_wrap "h") ex_hooked.
Proof.
  split; [done|]. split; [reflexivity|].
  eexists. split; [reflexivity|]. split; reflexivity.
Qed.

Lemma ex_boom_enabled (e : value) :
  enabled_action (ex_tool_boom e) "boom" (ex_throwing e) ex_hooked.
Proof.
  split; [done|]. split; [reflexivity|].
  eexists. split; [reflexivity|]. split; reflexivity.
Qed.

Lemma before_action_after_witness :
  ∃ payload,
    rawHandler (ex_args (ex_request (Some "greet") (VNum 42))) (fresh ex_tool 0%nat)
    = (Normal (payload, None),
       moved (snd (init (fresh ex_tool 0%nat))) 4%nat
         [EvBefore "greet" (VNum 42);
          EvAction "greet" (VObj [("b", VNum 42)]);
          EvAfter "greet" (VObj [("h", VObj [("b", VNum 42)])])])
    ∧ carries_data payload (VObj [("a", VObj [("h", VObj [("b", VNum 42)])])]).
Proof.
  apply (proj1 (proj2 (before_action_after
                  (ex_args (ex_request (Some "greet") (VNum 42)))
                  (fresh ex_tool 0%nat) (snd (init (fresh ex_tool 0%nat)))
                  "greet" (VNum 42) None (ex_wrap "h") ex_hooked
                  eq_refl (ex_greet_enabled ex_counting_factory) eq_refl))
          (ex_wrap "b") (ex_wrap "a")
          (VObj [("b", VNum 42)]) (VObj [("h", VObj [("b", VNum 42)])])
          (VObj [("a", VObj [("h", VObj [("b", VNum 42)])])])
          2%nat 3%nat 4%nat); reflexivity.
Defined.

(** C2 on the code.  No handler is registered under [toString] and there is
    no action mapping: of the five conditions the third is the first that is
    met, but the lookup finds [Object.prototype.toString], the third check
    passes, and the answer is the message of the fourth. *)
Theorem inherited_name_passes_handler_check :
  actionMap ex_tool_unconfigured !! "toString" = None
  ∧ first_failure ex_tool_unconfigured (ex_request (Some "toString") VNull)
    = Some (unknown_action_msg "toString")
  ∧ rawHandler (ex_args (ex_request (Some "toString") VNull))
      (fresh ex_tool_unconfigured 0%nat)
    = (Normal (error_envelope (VStr (not_enabled_msg "toString")), with_status 400),
       fresh ex_tool_unconfigured 0%nat).
Proof. repeat split; vm_compute; reflexivity. Qed.

(** C3 on the code.  No handler is registered under [toString], and the
    action mapping has no entry for it; both lookups find
    [Object.prototype.toString], the dispatch goes through [init], calls it
    and answers with a success envelope. *)
Theorem inherited_name_is_dispatched :
  actionMap ex_tool !! "toString" = None
  ∧ rawHandler (ex_args (ex_request (Some "toString") (VNum 42))) (fresh ex_tool 0%nat)
    = (Normal (VObj [("data", VStr "[object Undefined]")], None),
       moved (snd (init (fresh ex_tool 0%nat))) 1%nat [EvAction "toString" (VNum 42)]).
Proof. split; vm_compute; reflexivity. Qed.

(** C4 on the code.  A handler is registered under [toString] and the action
    mapping has no entry for it; the lookup in the action mapping finds
    [Object.prototype.toString], which is truthy and not disabled, and the
    handler runs. *)
Theorem inherited_entry_enables_handler :
  actionMap ex_tool_shadow !! "toString" = Some ex_echo
  ∧ (∃ m, actions (config ex_tool_shadow) = Some m ∧ m !! "toString" = None)
  ∧ rawHandler (ex_args (ex_request (Some "toString") (VNum 42)))
      (fresh ex_tool_shadow 0%nat)
    = (Normal (VObj [("data", VNum 42)], None),
       moved (fresh ex_tool_shadow 0%nat) 0%nat [EvAction "toString" (VNum 42)]).
Proof.
  split; [reflexivity|]. split; [eexists; split; reflexivity|].
  vm_compute; reflexivity.
Qed.


Lemma unknown_action_own_names_witness :
  (∃ c, actions ex_config = Some c ∧ c !! "ghost" = Some ex_plain)
  ∧ rawHandler (ex_args (ex_request (Some "ghost") VNull)) (fresh ex_tool 0%nat)
    = (Normal (error_envelope (VStr (unknown_action_msg "ghost")), with_status 400),
       fresh ex_tool 0%nat).
Proof.
  split.
  - eexists. split; reflexivity.
  - apply (unknown_action_own_names (ex_args (ex_request (Some "ghost") VNull))
             (fresh ex_tool 0%nat) "ghost" VNull None eq_refl);
      [done | reflexivity | reflexivity].
Defined.

Lemma not_enabled_own_names_witness :
  rawHandler (ex_args (ex_request (Some "idle") VNull)) (fresh ex_tool 0%nat)
  = (Normal (error_envelope (VStr (not_enabled_msg "idle")), with_status 400),
     fresh ex_tool 0%nat)
  ∧ rawHandler (ex_args (ex_request (Some "off") VNull)) (fresh ex_tool 0%nat)
    = (Normal (error_envelope (VStr (not_enabled_msg "off")), with_status 400),
       fresh ex_tool 0%nat)
  ∧ rawHandler (ex_args (ex_request (Some "echo") VNull)) (fresh ex_tool_unconfigured 0%nat)
    = (Normal (error_envelope (VStr (not_enabled_msg "echo")), with_status 400),
       fresh ex_tool_unconfigured 0%nat).
Proof.
  split; [|split].
  - apply (not_enabled_own_names (ex_args (ex_request (Some "idle") VNull))
             (fresh ex_tool 0%nat) "idle" VNull None ex_echo eq_refl);
      [done | reflexivity |].
    right. eexists. split; [reflexivity|]. left. split; reflexivity.
  - apply (not_enabled_own_names (ex_args (ex_request (Some "off") VNull))
             (fresh ex_tool 0%nat) "off" VNull None ex_echo eq_refl);
      [done | reflexivity |].
    right. eexists. split; [reflexivity|]. right. exists ex_off. split; reflexivity.
  - apply (not_enabled_own_names (ex_args (ex_request (Some "echo") VNull))
             (fresh ex_tool_unconfigured 0%nat) "echo" VNull None ex_echo eq_refl);
      [done | reflexivity |].
    left. reflexivity.
Defined.

Lemma empty_action_witness :
  actionMap ex_tool !! "" = Some ex_echo
  ∧ (∃ m, actions (config ex_tool) = Some m ∧ m !! "" = Some ex_plain)
  ∧ rawHandler (ex_args (ex_request (Some "") (VNum 42))) (fresh ex_tool 0%nat)
    = (Normal (error_envelope (VStr "No action"), with_status 400),
       fresh ex_tool 0%nat).
Proof.
  split; [reflexivity|]. split.
  - eexists. split; reflexivity.
  - exact (empty_action record_send (fresh ex_tool 0%nat) (VNum 42) None).
Defined.

Lemma throw_caught_witness :
  get_message (Error "x") = Normal (VStr "x")
  ∧ rawHandler (ex_args (ex_request (Some "boom") (VNum 42)))
      (fresh (ex_tool_boom (Error "x")) 0%nat)
    = (Normal (error_envelope (VStr "x"), with_status 500),
       moved (snd (init (fresh (ex_tool_boom (Error "x")) 0%nat))) 3%nat
         [EvBefore "boom" (VNum 42);
          EvAction "boom" (VObj [("b", VNum 42)]);
          EvConsoleError (Error "x")]).
Proof.
  split; [reflexivity|].
  apply (proj1 (proj2 (throw_caught
                  (ex_args (ex_request (Some "boom") (VNum 42)))
                  (fresh (ex_tool_boom (Error "x")) 0%nat)
                  (snd (init (fresh (ex_tool_boom (Error "x")) 0%nat)))
                  "boom" (VNum 42) None (ex_throwing (Error "x")) ex_hooked
                  (Error "x") (VStr "x")
                  eq_refl (ex_boom_enabled (Error "x")) eq_refl eq_refl))
          (VObj [("b", VNum 42)]) 2%nat 3%nat); reflexivity.
Defined.

(** C5 as stated fails when the handler throws [undefined]: reading the
    message inside the catch clause throws, [rawHandler] rejects with that
    [TypeError] and no envelope is sent. *)
Lemma throw_undefined_escapes :
  fst (rawHandler (ex_args (ex_request (Some "boom") (VNum 42)))
         (fresh (ex_tool_boom VUndefined) 0%nat))
  = Throw TypeError
  ∧ ¬ (∃ p, fst (rawHandler (ex_args (ex_request (Some "boom") (VNum 42)))
                   (fresh (ex_tool_boom VUndefined) 0%nat))
            = Normal (p, with_status 500)).
Proof.
  split; [reflexivity|]. intros [p Hp]. vm_compute in Hp. discriminate.
Qed.

Lemma store_materialised_once_witness :
  store (this (snd (rawHandler (ex_args (ex_request (Some "greet") (VNum 42)))
                      (fresh ex_tool 0%nat))))
  = VNum 1
  ∧ store (this (dispatch_all
                   [ex_args (ex_request (Some "greet") (VNum 1));
                    ex_args (ex_request (Some "echo") (VNum 2))]
                   (snd (rawHandler (ex_args (ex_request (Some "greet") (VNum 42)))
                           (fresh ex_tool 0%nat)))))
    = VNum 1.
Proof.
  split.
  - apply (proj1 (proj2 (@store_materialised_once nat _ (value * option ResponseInit)))
             (ex_args (ex_request (Some "greet") (VNum 42))) (fresh ex_tool 0%nat)
             "greet" (VNum 42) None (ex_wrap "h") ex_hooked ex_counting_factory
             (VNum 1) 1%nat eq_refl (ex_greet_enabled ex_counting_factory)
             eq_refl eq_refl eq_refl).
  - apply (proj1 (proj1 (proj2 (proj2 (@store_materialised_once nat _
                                          (value * option ResponseInit))))
                    [ex_args (ex_request (Some "greet") (VNum 1));
                     ex_args (ex_request (Some "echo") (VNum 2))]
                    (snd (rawHandler (ex_args (ex_request (Some "greet") (VNum 42)))
                            (fresh ex_tool 0%nat)))
                    eq_refl)).
Defined.

(** C6 as stated fails for a factory that resolves to [undefined] on its
    first call: the second dispatch finds the store unset and calls the
    factory again. *)
Lemma late_store_calls_factory_twice :
  factory_calls
    (trace (dispatch_all
              [ex_args (ex_request (Some "echo") (VNum 1));
               ex_args (ex_request (Some "echo") (VNum 2))]
              (fresh ex_tool_late 0%nat)))
  = 2%nat
  ∧ ¬ (factory_calls
         (trace (dispatch_all
                   [ex_args (ex_request (Some "echo") (VNum 1));
                    ex_args (ex_request (Some "echo") (VNum 2))]
                   (fresh ex_tool_late 0%nat)))
       ≤ 1)%nat.
Proof.
  assert (H : factory_calls
                (trace (dispatch_all
                          [ex_args (ex_request (Some "echo") (VNum 1));
                           ex_args (ex_request (Some "echo") (VNum 2))]
                          (fresh ex_tool_late 0%nat))) = 2%nat)
    by (vm_compute; reflexivity).
  split; [exact H|]. rewrite H. lia.
Qed.

(** C7 on the code.  Two dispatches started together on a new instance each
    find the store unset: the factory is called twice, and the store the first
    one is given is overwritten by the second. *)
Theorem overlapping_dispatches_call_factory_twice :
  factory_calls (trace (snd (init_calls 2 (fresh ex_tool 0%nat)))) = 2%nat
  ∧ fst (init_resumes (fst (init_calls 2 (fresh ex_tool 0%nat)))
           (snd (init_calls 2 (fresh ex_tool 0%nat))))
    = [VNum 1; VNum 2].
Proof. split; vm_compute; reflexivity. Qed.

Lemma envelope_shape_witness :
  one_of_data_error (error_envelope (VStr "x")) = true
  ∧ is_string (field "error" (error_envelope (VStr (unknown_action_msg "ghost")))) = true.
Proof.
  split.
  - exact (proj1 (@envelope_shape nat _ (ex_request (Some "boom") (VNum 42))
             (fresh (ex_tool_boom (Error "x")) 0%nat)
             (snd (rawHandler (ex_args (ex_request (Some "boom") (VNum 42)))
                     (fresh (ex_tool_boom (Error "x")) 0%nat)))
             (error_envelope (VStr "x")) (with_status 500) eq_refl)).
  - exact (proj2 (proj2 (proj1 (proj2 (proj2 (proj2
             (@envelope_shape nat _ (ex_request (Some "ghost") VNull)
                (fresh ex_tool 0%nat) (fresh ex_tool 0%nat)
                (error_envelope (VStr (unknown_action_msg "ghost")))
                (with_status 400) eq_refl)))) eq_refl))).
Defined.

(** C8 as stated fails when the handler throws a string: a string has no
    message, and the envelope sent is [{ error: undefined }]. *)
Lemma thrown_string_envelope :
  fst (rawHandler (ex_args (ex_request (Some "boom") (VNum 42)))
         (fresh (ex_tool_boom (VStr "x")) 0%nat))
  = Normal (error_envelope VUndefined, with_status 500)
  ∧ response_envelope (error_envelope VUndefined) = false.
Proof. split; reflexivity. Qed.

Lemma client_error_before_init_witness :
  snd (rawHandler (ex_args (ex_request (Some "idle") VNull)) (fresh ex_tool 0%nat))
  = fresh ex_tool 0%nat.
Proof.
  exact (proj1 (@client_error_before_init nat _ (ex_request (Some "idle") VNull)
           (fresh ex_tool 0%nat)
           (snd (rawHandler (ex_args (ex_request (Some "idle") VNull))
                   (fresh ex_tool 0%nat)))
           (error_envelope (VStr (not_enabled_msg "idle"))) eq_refl)).
Defined.

(** ** End-to-end scenarios through [pagesApiHandler] *)

Example scenario_echo :
  pagesApiHandler (ex_request (Some "echo") (VNum 42)) (fresh ex_echo_tool 0%nat)
  = (Normal (200, data_envelope (VNum 42)),
     moved (fresh ex_echo_tool 0%nat) 0%nat [EvAction "echo" (VNum 42)]).
Proof. reflexivity. Qed.

Example scenario_missing :
  pagesApiHandler (ex_request (Some "missing") VUndefined) (fresh ex_echo_tool 0%nat)
  = (Normal (400, error_envelope (VStr (unknown_action_msg "missing"))),
     fresh ex_echo_tool 0%nat).
Proof. reflexivity. Qed.

Example scenario_disabled :
  pagesApiHandler (ex_request (Some "greet") (VStr "x")) (fresh ex_greet_tool 0%nat)
  = (Normal (400, error_envelope (VStr (not_enabled_msg "greet"))),
     fresh ex_greet_tool 0%nat).
Proof. reflexivity. Qed.

(** The messages, character by character. *)
Example unknown_action_msg_chars :
  list_ascii_of_string (unknown_action_msg "x")
  = list_ascii_of_string "Unknown action " ++ ["034"; "x"; "034"]%char.
Proof. reflexivity. Qed.

Example not_enabled_msg_chars :
  list_ascii_of_string (not_enabled_msg "x")
  = list_ascii_of_string "Action " ++ ["034"; "x"; "034"]%char
    ++ list_ascii_of_string " not enabled".
Proof. reflexivity. Qed.

(** * Further properties of the dispatcher *)

Section Dispatch.

Context {W : Type} `{engine : Engine} {R : Type}.
Implicit Types (st : state W) (args : NextToolHandlerArgs R)
  (req : NextToolRequest) (reqs : list (NextToolHandlerArgs R)).

Lemma name_of_request_for a i hs : name_of (request_for a i hs) = a.
Proof. reflexivity. Qed.

(** The events of the guarded part: the [before] hook, the handler, the
    [after] hook and the console, each at most once, in this order. *)
Lemma invoke_events (snd_fn : value → option ResponseInit → R) req a i
    (f : option (NextToolActionFn W)) c st :
  ∃ w bef act aft err,
    snd (invoke snd_fn req a i f c st) = moved st w (bef ++ act ++ aft ++ err)
    ∧ (bef = [] ∨ bef = [EvBefore a i])
    ∧ (act = [] ∨ ∃ x, act = [EvAction a x])
    ∧ (aft = [] ∨ ∃ y, aft = [EvAfter a y])
    ∧ (err = [] ∨ ∃ e, err = [EvConsoleError e])
    ∧ (act = [] → aft = []).
Proof.
  assert (Hbef : hook_event (EvBefore a) (before c) i = []
                 ∨ hook_event (EvBefore a) (before c) i = [EvBefore a i])
    by (destruct (before c); simpl; auto).
  assert (Haft : ∀ y, hook_event (EvAfter a) (after c) y = []
                      ∨ ∃ y', hook_event (EvAfter a) (after c) y = [EvAfter a y'])
    by (intros y; destruct (after c); simpl; eauto).
  destruct (run_hook (before c) i req (world st)) as [[x|e] w1] eqn:Hb.
  - destruct f as [h|].
    + destruct (h x req w1) as [[y|e] w2] eqn:Hh.
      * destruct (run_hook (after c) y req w2) as [[z|e] w3] eqn:Ha.
        -- rewrite (invoke_returns snd_fn req a i h c st x y z w1 w2 w3 Hb Hh Ha); simpl.
           exists w3, (hook_event (EvBefore a) (before c) i), [EvAction a x],
             (hook_event (EvAfter a) (after c) y), [].
           rewrite app_nil_r. repeat split; eauto; discriminate.
        -- rewrite (invoke_after_throws snd_fn req a i h c st x y e w1 w2 w3 Hb Hh Ha),
             caught_eq, moved_moved; simpl.
           exists w3, (hook_event (EvBefore a) (before c) i), [EvAction a x],
             (hook_event (EvAfter a) (after c) y), [EvConsoleError e].
           rewrite <- !app_assoc. repeat split; eauto; discriminate.
      * rewrite (invoke_action_throws snd_fn req a i h c st x e w1 w2 Hb Hh),
          caught_eq, moved_moved; simpl.
        exists w2, (hook_event (EvBefore a) (before c) i), [EvAction a x],
          [], [EvConsoleError e].
        rewrite <- !app_assoc. repeat split; eauto.
    + rewrite (invoke_not_callable snd_fn req a i c st x w1 Hb),
        caught_eq, moved_moved; simpl.
      exists w1, (hook_event (EvBefore a) (before c) i), [], [],
        [EvConsoleError (EngineTypeError a x)].
      repeat split; eauto.
  - rewrite (invoke_before_throws snd_fn req a i c f st e w1 Hb),
      caught_eq, moved_moved; simpl.
    exists w1, (hook_event (EvBefore a) (before c) i), [], [], [EvConsoleError e].
    repeat split; eauto.
Qed.

(** The two ways through [rawHandler]: stopped by a check, or [init] and the
    guarded part, on what the lookups found, for the action the request
    names. *)
Lemma rawHandler_paths args st :
  (∃ msg, stopped (this st) (request args) = Some msg
          ∧ rawHandler args st
            = (Normal (send args (error_envelope (VStr msg)) (with_status 400)), st))
  ∨ (∃ i (h : option (NextToolActionFn W)) c,
       action_of (request args) = Some (name_of (request args))
       ∧ stopped (this st) (request args) = None
       ∧ rawHandler args st
         = bind init (fun _ => invoke (send args) (request args)
                                 (name_of (request args)) i h c) st).
Proof.
  destruct (stopped (this st) (request args)) as [msg|] eqn:Hst.
  - left. exists msg. split; [done|]. by apply rawHandler_stopped.
  - right. destruct (rawHandler_passed args st Hst) as (a & i & Hreq & Ha & Hr).
    assert (Hn : name_of (request args) = a) by (by rewrite Hreq).
    exists i, (found_handler (this st) a), (found_entry (this st) a).
    rewrite Hn. split; [|split; [done|done]].
    unfold action_of. by rewrite Hreq.
Qed.

(** What passing the checks takes. *)
Lemma stopped_None (t : NextTool W) req :
  stopped t req = None →
  name_of req ≠ ""
  ∧ get (actionMap t) (name_of req) ≠ Absent
  ∧ ∃ m, actions (config t) = Some m
         ∧ get m (name_of req) ≠ Absent
         ∧ is_disabled (entry (get m (name_of req))) = false.
Proof.
  unfold stopped, name_of, action_of.
  destruct (body req) as [[[a|] i]|]; simpl; try discriminate.
  destruct (String.eqb a "") eqn:Ea; [discriminate|].
  apply String.eqb_neq in Ea.
  destruct (get (actionMap t) a) as [h|k|] eqn:Hh; try discriminate.
  all: destruct (actions (config t)) as [m|]; [|discriminate].
  all: destruct (get m a) as [c|k'|] eqn:Hc; try discriminate.
  all: simpl; intros Hd; split; [done|]; split; [done|].
  all: exists m; rewrite Hc; simpl; split; [done|]; split; [done|]; try done.
  all: by destruct (is_disabled c).
Qed.

(** X2. Whatever the request and however the dispatch ends, it adds to the
    trace at most one call of the factory, then at most one call of the
    [before] hook, of the handler and of the [after] hook, all under the name
    the request carries, then at most one line on the console, in this order;
    the [after] hook never runs without the handler. *)
Theorem dispatch_trace_shape args st :
  ∃ fac bef act aft err,
    trace (snd (rawHandler args st)) = trace st ++ fac ++ bef ++ act ++ aft ++ err
    ∧ (fac = [] ∨ ∃ r, fac = [EvGetStoreFn r])
    ∧ (bef = [] ∨ ∃ i, bef = [EvBefore (name_of (request args)) i])
    ∧ (act = [] ∨ ∃ x, act = [EvAction (name_of (request args)) x])
    ∧ (aft = [] ∨ ∃ y, aft = [EvAfter (name_of (request args)) y])
    ∧ (err = [] ∨ ∃ e, err = [EvConsoleError e])
    ∧ (act = [] → aft = []).
Proof.
  destruct (rawHandler_paths args st) as [(msg & _ & ->) | (i & h & c & _ & _ & ->)].
  - exists [], [], [], [], []. simpl. rewrite app_nil_r. repeat split; auto.
  - set (a := name_of (request args)). unfold bind.
    destruct (init_cases st)
      as [[-> _] | (_ & f & w' & _ & [(v & _ & ->) | (e & _ & ->)])].
    + destruct (invoke_events (send args) (request args) a i h c st)
        as (w & bef & act & aft & err & -> & Hb & Hact & Haft & Herr & Hord).
      exists [], bef, act, aft, err. simpl.
      repeat split; auto. destruct Hb as [->| ->]; eauto.
    + unfold set_store; simpl.
      match goal with |- context [invoke _ _ _ _ _ _ ?s] => set (st1 := s) end.
      destruct (invoke_events (send args) (request args) a i h c st1)
        as (w & bef & act & aft & err & -> & Hb & Hact & Haft & Herr & Hord).
      exists [EvGetStoreFn (Normal v)], bef, act, aft, err. simpl.
      rewrite <- app_assoc. repeat split; eauto. destruct Hb as [->| ->]; eauto.
    + exists [EvGetStoreFn (Throw e)], [], [], [], []. simpl.
      repeat split; eauto.
Qed.

(** X3. When a dispatch has called a handler, it is under the name the
    request carries; the name is not empty, both lookups under it, in the
    handler mapping and in the action mapping, found something, and what the
    second found is not disabled.  For a name that is not a key of
    [Object.prototype] this makes the two mappings an allow-list: the name
    has a handler and an entry of its own that is not disabled. *)
Theorem handler_only_when_enabled args st evs n x :
  trace (snd (rawHandler args st)) = trace st ++ evs →
  In (EvAction n x) evs →
  action_of (request args) = Some n
  ∧ n ≠ ""
  ∧ get (actionMap (this st)) n ≠ Absent
  ∧ (∃ m, actions (config (this st)) = Some m
          ∧ get m n ≠ Absent
          ∧ is_disabled (entry (get m n)) = false)
  ∧ (inherited n = false → ∃ h c, enabled_action (this st) n h c).
Proof.
  intros Htr Hin.
  destruct (rawHandler_paths args st) as [(msg & _ & Hr) | (i & h & c & Hact & Hst & Hr)];
    rewrite Hr in Htr.
  - simpl in Htr. rewrite <- (app_nil_r (trace st)) in Htr at 1.
    apply app_inv_head in Htr. subst evs. destruct Hin.
  - set (a := name_of (request args)) in *.
    assert (Hnew : ∀ st1 pre,
               trace st1 = trace st ++ pre → ¬ In (EvAction n x) pre →
               trace (snd (invoke (send args) (request args) a i h c st1))
               = trace st ++ evs → n = a).
    { intros st1 pre Hst1 Hpre.
      destruct (invoke_events (send args) (request args) a i h c st1)
        as (w & bef & act & aft & err & -> & Hb & Ha & Haf & He & _).
      simpl. rewrite Hst1, <- app_assoc. intros Heq.
      apply app_inv_head in Heq. subst evs.
      rewrite !in_app_iff in Hin.
      destruct Hin as [Hin | [Hin | [Hin | [Hin | Hin]]]]; [done|..].
      - destruct Hb as [-> | ->]; simpl in Hin; [done|]. by destruct Hin.
      - destruct Ha as [-> | [x' ->]]; simpl in Hin; [done|].
        destruct Hin as [[= <- _]|[]]. done.
      - destruct Haf as [-> | [y ->]]; simpl in Hin; [done|]. by destruct Hin.
      - destruct He as [-> | [e ->]]; simpl in Hin; [done|]. by destruct Hin. }
    assert (n = a) as ->.
    { unfold bind in Htr.
      destruct (init_cases st)
        as [[Hi _] | (_ & f & w' & _ & [(v & _ & Hi) | (e & _ & Hi)])];
        rewrite Hi in Htr.
      + apply (Hnew st []); [by rewrite app_nil_r | by intros [] | done].
      + unfold set_store in Htr; simpl in Htr.
        match type of Htr with context [invoke _ _ _ _ _ _ ?s] => set (st1 := s) in * end.
        apply (Hnew st1 [EvGetStoreFn (Normal v)]); [done | | done].
        intros [[=]|[]].
      + simpl in Htr. apply app_inv_head in Htr. subst evs.
        destruct Hin as [[=]|[]]. }
    destruct (stopped_None _ _ Hst) as (Hne & Hh & m & Hm & Hc & Hd).
    fold a in Hne, Hh, Hc, Hd.
    split; [done|]. split; [done|]. split; [done|]. split; [by exists m|].
    intros Hi. rewrite (get_not_inherited (actionMap (this st)) a Hi) in Hh.
    rewrite (get_not_inherited m a Hi) in Hc, Hd.
    destruct (actionMap (this st) !! a) as [h'|] eqn:Hh'; [|done].
    destruct (m !! a) as [c'|] eqn:Hc'; [|done].
    exists h', c'. split; [done|]. split; [done|]. by exists m.
Qed.

End Dispatch.

Section Outcomes.

Context {W : Type} `{engine : Engine} {R : Type}.
Implicit Types (st : state W) (args : NextToolHandlerArgs R)
  (req : NextToolRequest).

(** X5. [init] is awaited outside the [try] block: when the factory rejects
    during the dispatch of an enabled action, the dispatch rejects with the
    factory's error; no hook or handler has run, nothing is logged and the
    store is as it was. *)
Theorem factory_rejection_escapes args st a i hs h c f e w' :
  request args = request_for a i hs →
  enabled_action (this st) a h c →
  truthy (store (this st)) = false →
  getStoreFn (this st) = Some f →
  f (world st) = (Throw e, w') →
  rawHandler args st = (Throw e, moved st w' [EvGetStoreFn (Throw e)]).
Proof.
  intros Hreq Hen Hs Hf Hfw.
  apply (rawHandler_init_throws args st _ a i hs h c e Hreq Hen).
  unfold init, init_call. rewrite Hs, Hf; simpl. by rewrite Hfw.
Qed.

End Outcomes.

Section Success.

Context {W : Type} `{engine : Engine}.
Implicit Types (st : state W) (req : NextToolRequest).

(** X6. For an action name that is not a key of [Object.prototype], a
    success envelope comes from the handler only: when a dispatch returns a
    response without a status, the request names an enabled action, [init]
    has returned, the hooks that exist and the handler have each resolved,
    and the [data] field of the envelope holds what they made of the input,
    one after the other. *)
Theorem data_only_from_handler req st st' p :
  inherited (name_of req) = false →
  rawHandler {| request := req; send := record_send |} st = (Normal (p, None), st') →
  ∃ a i h c st1 x y z w1 w2 w3,
    req = request_for a i (headers req)
    ∧ enabled_action (this st) a h c
    ∧ init st = (Normal tt, st1)
    ∧ run_hook (before c) i req (world st1) = (Normal x, w1)
    ∧ h x req w1 = (Normal y, w2)
    ∧ run_hook (after c) y req w2 = (Normal z, w3)
    ∧ carries_data p z
    ∧ st' = moved st1 w3 (hook_event (EvBefore a) (before c) i
                          ++ [EvAction a x] ++ hook_event (EvAfter a) (after c) y).
Proof.
  intros Hn.
  destruct (first_failure (this st) req) as [msg|] eqn:Hff.
  - rewrite <- (stopped_first_failure _ _ Hn) in Hff.
    by rewrite (rawHandler_stopped {| request := req; send := record_send |} st msg Hff).
  - destruct (first_failure_None _ _ Hff) as (a & i & h & c & Hreq & Hen).
    rewrite (rawHandler_enabled {| request := req; send := record_send |}
               st a i (headers req) h c Hreq Hen).
    unfold bind; simpl. destruct (init st) as [[[]|e0] st1] eqn:Hinit; [|done].
    destruct (run_hook (before c) i req (world st1)) as [[x|e] w1] eqn:Hb.
    + destruct (h x req w1) as [[y|e] w2] eqn:Hh.
      * destruct (run_hook (after c) y req w2) as [[z|e] w3] eqn:Ha.
        -- rewrite (invoke_returns _ req a i h c st1 x y z w1 w2 w3 Hb Hh Ha).
           intros [= <- <-]. exists a, i, h, c, st1, x, y, z, w1, w2, w3.
           do 6 (split; [done|]). split; [by repeat split|done].
        -- rewrite (invoke_after_throws _ req a i h c st1 x y e w1 w2 w3 Hb Hh Ha),
             caught_eq. by destruct (get_message e).
      * rewrite (invoke_action_throws _ req a i h c st1 x e w1 w2 Hb Hh), caught_eq.
        by destruct (get_message e).
    + rewrite (invoke_before_throws _ req a i c (Some h) st1 e w1 Hb), caught_eq.
      by destruct (get_message e).
Qed.

(** X7. [pagesApiHandler] answers with status 200, 400 or 500 and no other:
    200 with a data envelope; 400 with a message, the state untouched, the
    message being that of the first condition met when the action name is
    not a key of [Object.prototype]; 500 with the message of the value that
    was caught and logged. *)
Theorem pagesApiHandler_status req st s p st' :
  pagesApiHandler req st = (Normal (s, p), st') →
  (s = 200 ∧ ∃ z, carries_data p z)
  ∨ (s = 400 ∧ st' = st
     ∧ ∃ msg, p = error_envelope (VStr msg)
              ∧ (inherited (name_of req) = false →
                 first_failure (this st) req = Some msg))
  ∨ (s = 500
     ∧ ∃ e m tr, get_message e = Normal m ∧ p = error_envelope m
                 ∧ trace st' = tr ++ [EvConsoleError e]).
Proof.
  unfold pagesApiHandler. destruct req as [b hs]; simpl.
  set (req := {| body := b; headers := hs |}).
  destruct (stopped (this st) req) as [msg|] eqn:Hst.
  - rewrite (rawHandler_stopped {| request := req; send := json |} st msg Hst).
    intros [= <- <- <-]. right; left. split; [done|]. split; [done|].
    exists msg. split; [done|]. intros Hn. by rewrite <- (stopped_first_failure _ _ Hn).
  - destruct (rawHandler_passed {| request := req; send := json |} st Hst)
      as (a & i & _ & _ & ->).
    unfold bind; simpl. destruct (init st) as [[[]|e0] st1]; [|done].
    destruct (invoke_cases json req a i (found_handler (this st) a)
                (found_entry (this st) a) st1)
      as (w & evs & _ & [[z Hz] | [e He]]); simpl in *; rewrite ?Hz, ?He.
    + intros [= <- <- <-]. left. split; [done|]. by exists z.
    + rewrite caught_eq. destruct (get_message e) as [m|] eqn:Hm; [|done].
      intros [= <- <- <-]. right; right. split; [done|].
      by exists e, m, (trace (moved st1 w evs)).
Qed.

End Success.

Section Instance.

Context {W : Type} `{engine : Engine} {R : Type}.
Implicit Types (st : state W) (args : NextToolHandlerArgs R)
  (reqs : list (NextToolHandlerArgs R)).

(** A dispatch writes to no field of the instance but [store]. *)
Lemma rawHandler_instance args st :
  getStoreFn (this (snd (rawHandler args st))) = getStoreFn (this st)
  ∧ config (this (snd (rawHandler args st))) = config (this st)
  ∧ actionMap (this (snd (rawHandler args st))) = actionMap (this st).
Proof.
  destruct (rawHandler_paths args st) as [(msg & _ & ->) | (i & h & c & _ & _ & ->)];
    [done|].
  unfold bind.
  destruct (init_cases st)
    as [[-> _] | (_ & f & w' & _ & [(v & _ & ->) | (e & _ & ->)])]; [| |done].
  - by destruct (invoke_state (send args) (request args) (name_of (request args)) i h c st)
      as (w & evs & _ & ->).
  - unfold set_store; simpl.
    match goal with |- context [invoke _ _ _ _ _ _ ?s] => set (st1 := s) end.
    by destruct (invoke_state (send args) (request args) (name_of (request args)) i h c st1)
      as (w & evs & _ & ->).
Qed.

(** Without a factory a dispatch leaves the whole instance as it is and calls
    no factory. *)
Lemma rawHandler_no_factory args st :
  getStoreFn (this st) = None →
  this (snd (rawHandler args st)) = this st
  ∧ factory_calls (trace (snd (rawHandler args st))) = factory_calls (trace st).
Proof.
  intros Hf.
  destruct (rawHandler_paths args st) as [(msg & _ & ->) | (i & h & c & _ & _ & ->)];
    [done|].
  unfold bind.
  destruct (init_cases st) as [[-> _] | (_ & f & w' & Hf' & _)]; [|congruence].
  destruct (invoke_state (send args) (request args) (name_of (request args)) i h c st)
    as (w & evs & Hevs & ->); simpl.
  split; [done|]. rewrite factory_calls_app, (factory_calls_user evs Hevs). lia.
Qed.

(** X8. The configuration, the handler mapping and the store factory of an
    instance are the same after any sequence of dispatches: [getConfig]
    returns what the constructor was given, whatever has been dispatched. *)
Theorem instance_immutable reqs st :
  getConfig (dispatch_all reqs st) = getConfig st
  ∧ actionMap (this (dispatch_all reqs st)) = actionMap (this st)
  ∧ getStoreFn (this (dispatch_all reqs st)) = getStoreFn (this st).
Proof.
  unfold getConfig. revert st.
  induction reqs as [|args reqs IH]; intros st; simpl; [done|].
  destruct (IH (snd (rawHandler args st))) as (-> & -> & ->).
  by destruct (rawHandler_instance args st) as (-> & -> & ->).
Qed.

(** X9. An instance constructed without a store, or with [undefined] as
    store, has no factory: through any sequence of dispatches [getStore] stays
    [undefined] and no factory is called. *)
Theorem storeless_instance reqs cfg sarg am (w : W) :
  sarg = None ∨ sarg = Some (StoreValue VUndefined) →
  getStore (dispatch_all reqs (fresh (constructor cfg sarg am) w)) = VUndefined
  ∧ factory_calls (trace (dispatch_all reqs (fresh (constructor cfg sarg am) w))) = 0%nat.
Proof.
  intros Hs.
  set (st0 := fresh (constructor cfg sarg am) w).
  assert (H0 : getStoreFn (this st0) = None) by (by destruct Hs as [-> | ->]).
  assert (Hgen : ∀ st, getStoreFn (this st) = None →
            this (dispatch_all reqs st) = this st
            ∧ factory_calls (trace (dispatch_all reqs st)) = factory_calls (trace st)).
  { induction reqs as [|args reqs IH]; intros st Hf; simpl; [done|].
    destruct (rawHandler_no_factory args st Hf) as [Ht Hc].
    destruct (IH (snd (rawHandler args st))) as [-> ->]; [by rewrite Ht|].
    by rewrite Ht, Hc. }
  destruct (Hgen st0 H0) as [Ht Hc]. unfold getStore. by rewrite Ht, Hc.
Qed.

(** X10. A precomputed store is not assigned by the constructor: [getStore]
    returns [undefined] on the new instance.  [init] assigns it without
    touching the world, and after the dispatch of an enabled action
    [getStore] returns it. *)
Theorem precomputed_store cfg v am (w : W) :
  v ≠ VUndefined →
  getStore (fresh (constructor cfg (Some (StoreValue v)) am) w) = VUndefined
  ∧ init (fresh (constructor cfg (Some (StoreValue v)) am) w)
    = set_store v (moved (fresh (constructor cfg (Some (StoreValue v)) am) w) w
                     [EvGetStoreFn (Normal v)])
  ∧ (∀ args a i hs h c,
       request args = request_for a i hs →
       enabled_action (constructor cfg (Some (StoreValue v)) am) a h c →
       getStore (snd (rawHandler args
                        (fresh (constructor cfg (Some (StoreValue v)) am) w))) = v).
Proof.
  intros Hv.
  set (st0 := fresh (constructor cfg (Some (StoreValue v)) am) w).
  assert (Hinit : init st0 = set_store v (moved st0 w [EvGetStoreFn (Normal v)]))
    by (by destruct v).
  split; [done|]. split; [done|].
  intros args a i hs h c Hreq Hen.
  rewrite (rawHandler_enabled args st0 a i hs h c Hreq Hen).
  unfold bind. rewrite Hinit. unfold set_store; simpl.
  match goal with |- context [invoke _ _ _ _ _ _ ?s] => set (st1 := s) end.
  by destruct (invoke_state (send args) (request args) a i (Some h) c st1)
    as (w1 & evs & _ & ->).
Qed.

(** X11. An instance constructed without a handler mapping has the empty
    one: every request that names an action which is not a key of
    [Object.prototype] is answered with "Unknown action" and status 400, and
    nothing runs. *)
Theorem no_action_map (snd_fn : value → option ResponseInit → R) cfg sarg (w : W) a i hs :
  a ≠ "" →
  inherited a = false →
  rawHandler {| request := request_for a i hs; send := snd_fn |}
    (fresh (constructor cfg sarg None) w)
  = (Normal (snd_fn (error_envelope (VStr (unknown_action_msg a))) (with_status 400)),
     fresh (constructor cfg sarg None) w).
Proof.
  intros Ha Hi. unfold rawHandler; simpl.
  rewrite (eqb_empty_false a Ha).
  change (actionMap (this (fresh (constructor cfg sarg None) w)))
    with (∅ : gmap string (NextToolActionFn W)).
  by rewrite (get_not_inherited _ a Hi), lookup_empty.
Qed.

End Instance.

(** * Properties of [namespaceFromEnv] *)

Section NamespaceProperties.

Variable toLowerCase : string → string.
Implicit Types (env : gmap string string) (project : option string).

(** Setting a variable to the empty string and unsetting it differ, for a
    reader of [c], at most by [Some ""] against [None]. *)
Lemma read_empty env (k c : string) :
  <[k:=""]> env !! c = delete k env !! c
  ∨ (<[k:=""]> env !! c = Some "" ∧ delete k env !! c = None).
Proof.
  destruct (decide (k = c)) as [->|Hne].
  - right. by rewrite lookup_insert_eq, lookup_delete_eq.
  - left. by rewrite lookup_insert_ne, lookup_delete_ne.
Qed.

(** X12. For [namespaceFromEnv] a variable set to the empty string is a
    variable that is not set, whichever variable it is. *)
Theorem empty_variable_is_unset env (k : string) project :
  namespaceFromEnv toLowerCase (<[k:=""]> env) project
  = namespaceFromEnv toLowerCase (delete k env) project.
Proof.
  unfold namespaceFromEnv, namespaceFromVercel.
  destruct (read_empty env k "VERCEL") as [-> | [-> ->]];
    destruct (read_empty env k "NODE_ENV") as [-> | [-> ->]];
    destruct (read_empty env k "VERCEL_GIT_REPO_OWNER") as [-> | [-> ->]];
    destruct (read_empty env k "VERCEL_GIT_REPO_SLUG") as [-> | [-> ->]];
    destruct (read_empty env k "VERCEL_ENV") as [-> | [-> ->]];
    reflexivity.
Qed.

(** X13. The [project] argument: omitted, empty and ["localhost"] give the
    same namespace, and on Vercel the argument is not looked at. *)
Theorem project_argument env :
  namespaceFromEnv toLowerCase env None = namespaceFromEnv toLowerCase env (Some "")
  ∧ namespaceFromEnv toLowerCase env None
    = namespaceFromEnv toLowerCase env (Some "localhost")
  ∧ (truthy_str (env !! "VERCEL") = true →
     ∀ p q, namespaceFromEnv toLowerCase env p = namespaceFromEnv toLowerCase env q).
Proof.
  unfold namespaceFromEnv. repeat split.
  intros -> p q. reflexivity.
Qed.

(** X14. [namespaceFromEnv] reads five variables and nothing else: two
    environments that agree on them give the same namespace. *)
Theorem namespace_reads_only env env' project :
  (∀ k, In k namespace_variables → env !! k = env' !! k) →
  namespaceFromEnv toLowerCase env project = namespaceFromEnv toLowerCase env' project.
Proof.
  intros Hagree. unfold namespaceFromEnv, namespaceFromVercel.
  rewrite !(Hagree "VERCEL"), !(Hagree "NODE_ENV"), !(Hagree "VERCEL_GIT_REPO_OWNER"),
    !(Hagree "VERCEL_GIT_REPO_SLUG"), !(Hagree "VERCEL_ENV");
    unfold namespace_variables; simpl; auto 10.
Qed.

End NamespaceProperties.

(** * Dispatches that overlap, in general *)

Section Overlapping.

Context {W : Type}.
Implicit Types (st : state W).

(** X15. Started together on an instance whose store is falsy, [n]
    dispatches each call the factory before any of them assigns the store:
    [n] promises are pending, the factory has been called [n] times and the
    store is still as it was. *)
Theorem overlapping_inits n st f :
  truthy (store (this st)) = false →
  getStoreFn (this st) = Some f →
  length (fst (init_calls n st)) = n
  ∧ Forall (λ p, p ≠ None) (fst (init_calls n st))
  ∧ this (snd (init_calls n st)) = this st
  ∧ factory_calls (trace (snd (init_calls n st))) = (factory_calls (trace st) + n)%nat.
Proof.
  revert st. induction n as [|n IH]; intros st Hs Hf; simpl.
  - repeat split; [constructor | lia].
  - destruct (init_call_falsy st f Hs Hf) as [Hthis Htr].
    assert (Hp : fst (init_call st) ≠ None).
    { unfold init_call. rewrite Hs, Hf; simpl. by destruct (f (world st)). }
    destruct (init_call st) as [p st1]; simpl in *.
    destruct (IH st1) as (Hlen & Hall & Ht & Hc); [by rewrite Hthis..|].
    destruct (init_calls n st1) as [ps st2]; simpl in *.
    split; [by rewrite Hlen|]. split; [by constructor|].
    split; [by rewrite Ht|].
    rewrite Hc, Htr, factory_calls_app.
    replace (factory_calls [EvGetStoreFn (fst (f (world st)))]) with 1%nat by done.
    lia.
Qed.

End Overlapping.

(** * The further properties on the concrete instances *)

Lemma handler_only_when_enabled_witness :
  action_of (ex_request (Some "greet") (VNum 42)) = Some "greet"
  ∧ "greet" ≠ ""
  ∧ get (actionMap (this (fresh ex_tool 0%nat))) "greet" ≠ Absent
  ∧ (∃ m, actions (config (this (fresh ex_tool 0%nat))) = Some m
          ∧ get m "greet" ≠ Absent
          ∧ is_disabled (entry (get m "greet")) = false)
  ∧ (inherited "greet" = false
     → ∃ h c, enabled_action (this (fresh ex_tool 0%nat)) "greet" h c).
Proof.
  apply (handler_only_when_enabled
           (ex_args (ex_request (Some "greet") (VNum 42))) (fresh ex_tool 0%nat)
           [EvGetStoreFn (Normal (VNum 1));
            EvBefore "greet" (VNum 42);
            EvAction "greet" (VObj [("b", VNum 42)]);
            EvAfter "greet" (VObj [("h", VObj [("b", VNum 42)])])]
           "greet" (VObj [("b", VNum 42)]) eq_refl).
  simpl. auto.
Defined.

Lemma ex_down_enabled :
  enabled_action ex_tool_down "greet" (ex_wrap "h") ex_hooked.
Proof. apply ex_greet_enabled. Qed.

Lemma factory_rejection_escapes_witness :
  rawHandler (ex_args (ex_request (Some "greet") (VNum 42))) (fresh ex_tool_down 0%nat)
  = (Throw (Error "down"),
     moved (fresh ex_tool_down 0%nat) 1%nat [EvGetStoreFn (Throw (Error "down"))]).
Proof.
  exact (factory_rejection_escapes
           (ex_args (ex_request (Some "greet") (VNum 42))) (fresh ex_tool_down 0%nat)
           "greet" (VNum 42) None (ex_wrap "h") ex_hooked ex_failing_factory
           (Error "down") 1%nat eq_refl ex_down_enabled eq_refl eq_refl eq_refl).
Defined.

Lemma data_only_from_handler_witness :
  ∃ a i h c st1 x y z w1 w2 w3,
    ex_request (Some "greet") (VNum 42)
    = request_for a i (headers (ex_request (Some "greet") (VNum 42)))
    ∧ enabled_action (this (fresh ex_tool 0%nat)) a h c
    ∧ init (fresh ex_tool 0%nat) = (Normal tt, st1)
    ∧ run_hook (before c) i (ex_request (Some "greet") (VNum 42)) (world st1)
      = (Normal x, w1)
    ∧ h x (ex_request (Some "greet") (VNum 42)) w1 = (Normal y, w2)
    ∧ run_hook (after c) y (ex_request (Some "greet") (VNum 42)) w2 = (Normal z, w3)
    ∧ carries_data (VObj [("data", VObj [("a", VObj [("h", VObj [("b", VNum 42)])])])]) z
    ∧ snd (rawHandler (ex_args (ex_request (Some "greet") (VNum 42)))
             (fresh ex_tool 0%nat))
      = moved st1 w3 (hook_event (EvBefore a) (before c) i
                      ++ [EvAction a x] ++ hook_event (EvAfter a) (after c) y).
Proof.
  exact (data_only_from_handler
           (ex_request (Some "greet") (VNum 42)) (fresh ex_tool 0%nat)
           (snd (rawHandler (ex_args (ex_request (Some "greet") (VNum 42)))
                   (fresh ex_tool 0%nat)))
           (VObj [("data", VObj [("a", VObj [("h", VObj [("b", VNum 42)])])])])
           eq_refl eq_refl).
Defined.

Lemma pagesApiHandler_status_witness :
  (200 = 200 ∧ ∃ z, carries_data (VObj [("data", VNum 42)]) z)
  ∨ (200 = 400
     ∧ snd (pagesApiHandler (ex_request (Some "echo") (VNum 42)) (fresh ex_echo_tool 0%nat))
       = fresh ex_echo_tool 0%nat
     ∧ ∃ msg, VObj [("data", VNum 42)] = error_envelope (VStr msg)
              ∧ (inherited (name_of (ex_request (Some "echo") (VNum 42))) = false →
                 first_failure (this (fresh ex_echo_tool 0%nat))
                   (ex_request (Some "echo") (VNum 42)) = Some msg))
  ∨ (200 = 500
     ∧ ∃ e m tr, get_message e = Normal m
                 ∧ VObj [("data", VNum 42)] = error_envelope m
                 ∧ trace (snd (pagesApiHandler (ex_request (Some "echo") (VNum 42))
                                 (fresh ex_echo_tool 0%nat)))
                   = tr ++ [EvConsoleError e]).
Proof.
  exact (pagesApiHandler_status
           (ex_request (Some "echo") (VNum 42)) (fresh ex_echo_tool 0%nat)
           200 (VObj [("data", VNum 42)])
           (snd (pagesApiHandler (ex_request (Some "echo") (VNum 42))
                   (fresh ex_echo_tool 0%nat)))
           eq_refl).
Defined.

Lemma storeless_instance_witness :
  getStore (dispatch_all
              [ex_args (ex_request (Some "greet") (VNum 1));
               ex_args (ex_request (Some "echo") (VNum 2))]
              (fresh ex_tool_storeless 0%nat))
  = VUndefined
  ∧ factory_calls
      (trace (dispatch_all
                [ex_args (ex_request (Some "greet") (VNum 1));
                 ex_args (ex_request (Some "echo") (VNum 2))]
                (fresh ex_tool_storeless 0%nat)))
    = 0%nat.
Proof.
  exact (storeless_instance
           [ex_args (ex_request (Some "greet") (VNum 1));
            ex_args (ex_request (Some "echo") (VNum 2))]
           ex_config None (Some (ex_actions VNull)) 0%nat (or_introl eq_refl)).
Defined.

Lemma precomputed_store_witness :
  getStore (fresh ex_tool_precomputed 0%nat) = VUndefined
  ∧ getStore (snd (rawHandler (ex_args (ex_request (Some "greet") (VNum 42)))
                     (fresh ex_tool_precomputed 0%nat)))
    = VStr "db".
Proof.
  assert (Hv : VStr "db" ≠ VUndefined) by discriminate.
  split.
  - exact (proj1 (precomputed_store (R := value * option ResponseInit)
                    ex_config (VStr "db") (Some (ex_actions VNull)) 0%nat Hv)).
  - exact (proj2 (proj2 (precomputed_store ex_config (VStr "db")
                           (Some (ex_actions VNull)) 0%nat Hv))
             (ex_args (ex_request (Some "greet") (VNum 42)))
             "greet" (VNum 42) None (ex_wrap "h") ex_hooked eq_refl
             (ex_greet_enabled ex_counting_factory)).
Defined.

Lemma no_action_map_witness :
  rawHandler (ex_args (ex_request (Some "echo") (VNum 42)))
    (fresh (constructor ex_config None None) 0%nat)
  = (Normal (error_envelope (VStr (unknown_action_msg "echo")), with_status 400),
     fresh (constructor ex_config None None) 0%nat).
Proof.
  assert (Ha : "echo" ≠ "") by discriminate.
  exact (no_action_map record_send ex_config None 0%nat "echo" (VNum 42) None Ha eq_refl).
Defined.

Lemma overlapping_inits_witness :
  length (fst (init_calls 3 (fresh ex_tool 0%nat))) = 3%nat
  ∧ this (snd (init_calls 3 (fresh ex_tool 0%nat))) = this (fresh ex_tool 0%nat)
  ∧ factory_calls (trace (snd (init_calls 3 (fresh ex_tool 0%nat)))) = 3%nat.
Proof.
  destruct (overlapping_inits 3 (fresh ex_tool 0%nat) ex_counting_factory
              eq_refl eq_refl) as (Hlen & _ & Hthis & Hcalls).
  exact (conj Hlen (conj Hthis Hcalls)).
Defined.

Lemma project_argument_witness :
  namespaceFromEnv ex_lower ex_env_vercel (Some "My-App")
  = namespaceFromEnv ex_lower ex_env_vercel None.
Proof.
  exact (proj2 (proj2 (project_argument ex_lower ex_env_vercel)) eq_refl
           (Some "My-App") None).
Defined.

Lemma namespace_reads_only_witness :
  namespaceFromEnv ex_lower ex_env_local (Some "My-App")
  = namespaceFromEnv ex_lower (delete "HOME" ex_env_local) (Some "My-App").
Proof.
  apply (namespace_reads_only ex_lower ex_env_local (delete "HOME" ex_env_local)).
  intros k Hk. simpl in Hk.
  destruct Hk as [<- | [<- | [<- | [<- | [<- | []]]]]]; reflexivity.
Defined.

(** ** Namespaces of the two environments *)

Example namespace_local :
  namespaceFromEnv ex_lower ex_env_local (Some "My-App") = "my-app:test"
  ∧ namespaceFromEnv ex_lower ∅ None = "localhost".
Proof. split; reflexivity. Qed.

(** On Vercel a variable that is not set leaves its place empty. *)
Example namespace_vercel :
  namespaceFromEnv ex_lower ex_env_vercel (Some "My-App") = "acme:shop:"
  ∧ namespaceFromEnv ex_lower (<["VERCEL" := "1"]> ∅) None = "::".
Proof. split; reflexivity. Qed.
